(** * IST8308 magnetometer driver: state machine, register checks, sampling

    A shallow embedding of [src/drivers/magnetometer/isentek/ist8308/IST8308.cpp]
    and the properties of its step function [Run].

    The driver talks to three collaborators that are not part of the file:
    the I2C bus ([transfer]), the work queue ([ScheduleNow] and friends) and
    the measurement sink ([_px4_mag]).  The bus and the clock are kept
    abstract (a [Platform] over an arbitrary world type); the calls made to
    the work queue, to the sink and to the bus are recorded in logs, newest
    call first, so that theorems can speak about what one invocation did. *)

From Stdlib Require Import ZArith List Bool Lia QArith.
Import ListNotations.
Local Open Scope Z_scope.

(** ** Fixed-width integers *)

(** Conversion to [uint8_t]. *)
Definition uint8 (z : Z) : Z := z mod 256.

(** Conversion to [int16_t] (two's complement wrap-around). *)
Definition int16 (z : Z) : Z := (z + 32768) mod 65536 - 32768.

(** Contextual conversion of an integer to [bool]. *)
Definition truthy (z : Z) : bool := negb (z =? 0).

(** [static constexpr int16_t combine(uint8_t msb, uint8_t lsb)] *)
Definition combine (msb lsb : Z) : Z := int16 (Z.lor (Z.shiftl msb 8) lsb).

(** Modelled from the spec: the literal suffix [_ms] of [time_literals],
    declared outside the sources.  The clock counts microseconds, so
    [100_ms] is 100000. *)
Definition ms (n : Z) : Z := n * 1000.

(** ** Declarations of the class *)

Inductive STATE : Type :=
| RESET
| WAIT_FOR_RESET
| CONFIGURE
| READ
| REQUEST_STOP
| STOPPED.

Definition STATE_eqb (a b : STATE) : bool :=
  match a, b with
  | RESET, RESET | WAIT_FOR_RESET, WAIT_FOR_RESET | CONFIGURE, CONFIGURE
  | READ, READ | REQUEST_STOP, REQUEST_STOP | STOPPED, STOPPED => true
  | _, _ => false
  end.

(** The states one invocation of the step function can leave the driver in,
    by the state it finds. *)
Definition next_states (st : STATE) : list STATE :=
  match st with
  | RESET => [WAIT_FOR_RESET]
  | WAIT_FOR_RESET => [CONFIGURE; RESET; WAIT_FOR_RESET]
  | CONFIGURE => [READ; CONFIGURE]
  | READ => [READ; CONFIGURE]
  | REQUEST_STOP => [STOPPED]
  | STOPPED => [STOPPED]
  end.

(** The states the branch of the step function for [st] can store. *)
Definition stores (st : STATE) : list STATE :=
  match st with
  | RESET => [WAIT_FOR_RESET]
  | WAIT_FOR_RESET => [CONFIGURE; RESET]
  | CONFIGURE => [READ]
  | READ => [CONFIGURE]
  | REQUEST_STOP => [STOPPED]
  | STOPPED => []
  end.

(** [register_config_t]: one entry of the configuration table. *)
Record register_config_t : Type := mk_cfg {
  reg : Z;
  set_bits : Z;
  clear_bits : Z
}.

(** The register map and the configuration table are declared in headers
    that are not among the sources; the driver is parametric in them. *)
Record Registers : Type := {
  Device_ID : Z;
  DIR_READ : Z;
  Register_WAI : Z;
  Register_STAT : Z;
  Register_CNTL3 : Z;
  CNTL3_SRST : Z;
  STAT_DRDY : Z;
  _register_cfg : list register_config_t;
  (** default value of the [notify] argument of [RegisterCheck] *)
  notify_default : bool
}.

Definition size_register_cfg (hdr : Registers) : nat := length (_register_cfg hdr).

(** A table entry whose two masks fit their [uint8_t] declarations. *)
Definition cfg_in_range (c : register_config_t) : Prop :=
  0 <= set_bits c < 256 /\ 0 <= clear_bits c < 256.

(** ** Collaborators *)

(** Calls received by the work queue ([ScheduledWorkItem]). *)
Inductive sched_call : Type :=
| ScheduleNow_
| ScheduleDelayed_ (delay_us : Z)
| ScheduleOnInterval_ (interval_us delay_us : Z)
| ScheduleClear_.

(** Calls received by the measurement sink ([PX4Magnetometer]).  The sample
    values are the [int16_t] results of [combine], which their conversion to
    [float] keeps exactly; the scale is kept as the exact rational the
    expression of the source denotes (its rounding to [float] is left out). *)
Inductive mag_call : Type :=
| mag_update (timestamp_sample : Z) (x y z : Z)
| mag_set_scale (scale : Q)
| mag_set_temperature_NAN.

(** Transfers issued on the bus, with the bytes sent.  [bus_xfer3] is the
    three-argument call [transfer(cmd, cmd, len)], [bus_xfer] the call
    [transfer(send, send_len, recv, recv_len)]. *)
Inductive bus_call : Type :=
| bus_xfer3 (cmd : list Z)
| bus_xfer (send : list Z) (recv_len : nat).

(** The bus and the clock, over a world [W] that the driver cannot see.
    A transfer gets the buffer as it is before the call and gives back the
    status and the buffer as it is after the call. *)
Record Platform (W : Type) : Type := {
  (** the status a transfer returns when it went well *)
  PX4_OK : Z;
  transfer3 : list Z -> W -> Z * list Z * W;
  transfer : list Z -> list Z -> W -> Z * list Z * W;
  hrt_absolute_time : W -> Z * W;
  hrt_elapsed_time : Z -> W -> Z * W
}.
Arguments PX4_OK {W} _.
Arguments transfer3 {W} _ _ _.
Arguments transfer {W} _ _ _ _.
Arguments hrt_absolute_time {W} _ _.
Arguments hrt_elapsed_time {W} _ _ _.

(** ** The driver object

    The member variables of the class, then what its base classes and its
    sink have received so far (newest call first), then the world behind
    the bus and the clock.  The three performance counters are kept as
    counts. *)

Record IST8308 (W : Type) : Type := mk_drv {
  _state : STATE;
  _reset_timestamp : Z;
  _last_config_check_timestamp : Z;
  _checked_register : nat;
  _transfer_perf : nat;
  _bad_register_perf : nat;
  _bad_transfer_perf : nat;
  work_queue : list sched_call;
  _px4_mag : list mag_call;
  bus : list bus_call;
  world : W
}.
Arguments mk_drv {W}.
Arguments _state {W}.
Arguments _reset_timestamp {W}.
Arguments _last_config_check_timestamp {W}.
Arguments _checked_register {W}.
Arguments _transfer_perf {W}.
Arguments _bad_register_perf {W}.
Arguments _bad_transfer_perf {W}.
Arguments work_queue {W}.
Arguments _px4_mag {W}.
Arguments bus {W}.
Arguments world {W}.

Section Setters.
Context {W : Type}.
Implicit Type d : IST8308 W.

Definition set_state (v : STATE) d : IST8308 W :=
  mk_drv v (_reset_timestamp d) (_last_config_check_timestamp d)
    (_checked_register d) (_transfer_perf d) (_bad_register_perf d)
    (_bad_transfer_perf d) (work_queue d) (_px4_mag d) (bus d) (world d).

Definition set_reset_timestamp (v : Z) d : IST8308 W :=
  mk_drv (_state d) v (_last_config_check_timestamp d)
    (_checked_register d) (_transfer_perf d) (_bad_register_perf d)
    (_bad_transfer_perf d) (work_queue d) (_px4_mag d) (bus d) (world d).

Definition set_last_config_check_timestamp (v : Z) d : IST8308 W :=
  mk_drv (_state d) (_reset_timestamp d) v
    (_checked_register d) (_transfer_perf d) (_bad_register_perf d)
    (_bad_transfer_perf d) (work_queue d) (_px4_mag d) (bus d) (world d).

Definition set_checked_register (v : nat) d : IST8308 W :=
  mk_drv (_state d) (_reset_timestamp d) (_last_config_check_timestamp d)
    v (_transfer_perf d) (_bad_register_perf d)
    (_bad_transfer_perf d) (work_queue d) (_px4_mag d) (bus d) (world d).

Definition set_transfer_perf (v : nat) d : IST8308 W :=
  mk_drv (_state d) (_reset_timestamp d) (_last_config_check_timestamp d)
    (_checked_register d) v (_bad_register_perf d)
    (_bad_transfer_perf d) (work_queue d) (_px4_mag d) (bus d) (world d).

Definition set_bad_register_perf (v : nat) d : IST8308 W :=
  mk_drv (_state d) (_reset_timestamp d) (_last_config_check_timestamp d)
    (_checked_register d) (_transfer_perf d) v
    (_bad_transfer_perf d) (work_queue d) (_px4_mag d) (bus d) (world d).

Definition set_bad_transfer_perf (v : nat) d : IST8308 W :=
  mk_drv (_state d) (_reset_timestamp d) (_last_config_check_timestamp d)
    (_checked_register d) (_transfer_perf d) (_bad_register_perf d)
    v (work_queue d) (_px4_mag d) (bus d) (world d).

Definition set_work_queue (v : list sched_call) d : IST8308 W :=
  mk_drv (_state d) (_reset_timestamp d) (_last_config_check_timestamp d)
    (_checked_register d) (_transfer_perf d) (_bad_register_perf d)
    (_bad_transfer_perf d) v (_px4_mag d) (bus d) (world d).

Definition set_px4_mag (v : list mag_call) d : IST8308 W :=
  mk_drv (_state d) (_reset_timestamp d) (_last_config_check_timestamp d)
    (_checked_register d) (_transfer_perf d) (_bad_register_perf d)
    (_bad_transfer_perf d) (work_queue d) v (bus d) (world d).

Definition set_bus (v : list bus_call) d : IST8308 W :=
  mk_drv (_state d) (_reset_timestamp d) (_last_config_check_timestamp d)
    (_checked_register d) (_transfer_perf d) (_bad_register_perf d)
    (_bad_transfer_perf d) (work_queue d) (_px4_mag d) v (world d).

Definition set_world (v : W) d : IST8308 W :=
  mk_drv (_state d) (_reset_timestamp d) (_last_config_check_timestamp d)
    (_checked_register d) (_transfer_perf d) (_bad_register_perf d)
    (_bad_transfer_perf d) (work_queue d) (_px4_mag d) (bus d) v.

(** The driver object [d] after more transfers, which leave world [w]. *)
Definition on_bus (calls : list bus_call) (w : W) d : IST8308 W :=
  set_bus (calls ++ bus d) (set_world w d).

(** [d'] has the state, cursor, timestamps, queues and transfer counters
    of [d]: only the bus, the world and the count of bad registers may
    differ. *)
Definition same_members d d' : Prop :=
  _state d' = _state d
  /\ _checked_register d' = _checked_register d
  /\ _reset_timestamp d' = _reset_timestamp d
  /\ _last_config_check_timestamp d' = _last_config_check_timestamp d
  /\ work_queue d' = work_queue d
  /\ _px4_mag d' = _px4_mag d
  /\ _transfer_perf d' = _transfer_perf d
  /\ _bad_transfer_perf d' = _bad_transfer_perf d.
End Setters.

(** Modelled from the spec: the member initialisers of the class declaration,
    which is not among the sources.  The lifecycle starts in [RESET], the
    health-check cursor starts from index 0, nothing has been counted or
    sent yet. *)
Definition constructed {W : Type} (w : W) : IST8308 W :=
  mk_drv RESET 0 0 0%nat 0%nat 0%nat 0%nat [] [] [] w.

(** ** A monad for member functions

    A member function reads and writes the driver object and may have no
    defined result: indexing the configuration table out of bounds is
    undefined behaviour, rendered as [None]. *)

Definition M (W A : Type) : Type := IST8308 W -> option (A * IST8308 W).

Definition ret {W A} (a : A) : M W A := fun d => Some (a, d).

Definition bind {W A B} (m : M W A) (k : A -> M W B) : M W B :=
  fun d => match m d with
           | Some (a, d') => k a d'
           | None => None
           end.

Definition undefined {W A} : M W A := fun _ => None.

Declare Scope drv_scope.
Delimit Scope drv_scope with drv.
Notation "x <- m ;; k" := (bind m (fun x => k))
  (at level 61, m at next level, right associativity) : drv_scope.
Notation "m ;; k" := (bind m (fun _ => k))
  (at level 61, right associativity) : drv_scope.
Local Open Scope drv_scope.

Definition gets {W A} (f : IST8308 W -> A) : M W A := fun d => Some (f d, d).
Definition modify {W} (f : IST8308 W -> IST8308 W) : M W unit :=
  fun d => Some (tt, f d).

(** ** Member functions *)

Section Driver.
Context {W : Type}.
Variable px : Platform W.
Variable hdr : Registers.

(** *** Calls into the collaborators *)

Definition ScheduleNow : M W unit :=
  modify (fun d => set_work_queue (ScheduleNow_ :: work_queue d) d).
Definition ScheduleDelayed (delay_us : Z) : M W unit :=
  modify (fun d => set_work_queue (ScheduleDelayed_ delay_us :: work_queue d) d).
Definition ScheduleOnInterval (interval_us delay_us : Z) : M W unit :=
  modify (fun d =>
    set_work_queue (ScheduleOnInterval_ interval_us delay_us :: work_queue d) d).
Definition ScheduleClear : M W unit :=
  modify (fun d => set_work_queue (ScheduleClear_ :: work_queue d) d).

Definition px4_mag (c : mag_call) : M W unit :=
  modify (fun d => set_px4_mag (c :: _px4_mag d) d).

Definition perf_count_bad_register : M W unit :=
  modify (fun d => set_bad_register_perf (S (_bad_register_perf d)) d).
Definition perf_count_bad_transfer : M W unit :=
  modify (fun d => set_bad_transfer_perf (S (_bad_transfer_perf d)) d).
(** [perf_begin]/[perf_end] of [_transfer_perf]: one more measured interval. *)
Definition perf_begin_transfer : M W unit := ret tt.
Definition perf_end_transfer : M W unit :=
  modify (fun d => set_transfer_perf (S (_transfer_perf d)) d).

Definition now : M W Z := fun d =>
  let '(t, w) := hrt_absolute_time px (world d) in
  Some (t, set_world w d).

Definition elapsed (then_ : Z) : M W Z := fun d =>
  let '(t, w) := hrt_elapsed_time px then_ (world d) in
  Some (t, set_world w d).

(** [transfer(cmd, cmd, len)]: status and the buffer after the call. *)
Definition i2c_transfer3 (cmd : list Z) : M W (Z * list Z) := fun d =>
  let '(r, buf, w) := transfer3 px cmd (world d) in
  Some ((r, buf), set_bus (bus_xfer3 cmd :: bus d) (set_world w d)).

(** [transfer(send, send_len, recv, recv_len)] *)
Definition i2c_transfer (send recv : list Z) : M W (Z * list Z) := fun d =>
  let '(r, buf, w) := transfer px send recv (world d) in
  Some ((r, buf), set_bus (bus_xfer send (length recv) :: bus d) (set_world w d)).

(** *** Register access *)

(** The two bytes [RegisterRead] puts in [cmd] before the transfer. *)
Definition read_cmd (reg_ : Z) : list Z :=
  [uint8 (Z.lor (uint8 reg_) (DIR_READ hdr)); 0].

Definition RegisterRead (reg_ : Z) : M W Z :=
  let cmd := read_cmd reg_ in
  r <- i2c_transfer3 cmd ;;
  ret (uint8 (nth 1 (snd r) 0)).

Definition RegisterWrite (reg_ value : Z) : M W unit :=
  let cmd := [uint8 reg_; value] in
  i2c_transfer3 cmd ;;
  ret tt.

Definition RegisterSetAndClearBits (reg_ setbits clearbits : Z) : M W unit :=
  orig_val <- RegisterRead reg_ ;;
  let val := orig_val in
  let val := if truthy setbits then uint8 (Z.lor val setbits) else val in
  let val := if truthy clearbits
             then uint8 (Z.land val (Z.lnot clearbits)) else val in
  RegisterWrite reg_ val.

Definition RegisterSetBits (reg_ setbits : Z) : M W unit :=
  RegisterSetAndClearBits reg_ setbits 0.

Definition RegisterClearBits (reg_ clearbits : Z) : M W unit :=
  RegisterSetAndClearBits reg_ 0 clearbits.

(** The test [RegisterCheck] applies to the byte it has read. *)
Definition check_value (reg_cfg : register_config_t) (reg_value : Z) : bool :=
  let success := true in
  let success :=
    if truthy (set_bits reg_cfg)
       && negb (truthy (Z.land reg_value (set_bits reg_cfg)))
    then false else success in
  let success :=
    if truthy (clear_bits reg_cfg)
       && truthy (Z.land reg_value (clear_bits reg_cfg))
    then false else success in
  success.

Definition RegisterCheck (reg_cfg : register_config_t) (notify : bool)
  : M W bool :=
  reg_value <- RegisterRead (reg reg_cfg) ;;
  let success := check_value reg_cfg reg_value in
  (if negb success then
     RegisterSetAndClearBits (reg reg_cfg) (set_bits reg_cfg) (clear_bits reg_cfg) ;;
     (if notify then perf_count_bad_register else ret tt)
   else ret tt) ;;
  ret success.

(** The loop of [Configure] over the table, threading [success]. *)
Fixpoint Configure_loop (regs : list register_config_t) (success : bool)
  : M W bool :=
  match regs with
  | [] => ret success
  | reg_cfg :: rest =>
      ok <- RegisterCheck reg_cfg (notify_default hdr) ;;
      Configure_loop rest (if negb ok then false else success)
  end.

(** [1.f / 6.6f * 0.01f] *)
Definition scale_6_6_LSB_per_uT : Q := (1 / (66 # 10) * (1 # 100))%Q.

Definition Configure : M W bool :=
  success <- Configure_loop (_register_cfg hdr) true ;;
  px4_mag (mag_set_scale scale_6_6_LSB_per_uT) ;;
  px4_mag mag_set_temperature_NAN ;;
  ret success.

(** *** The step function *)

Definition load_state : M W STATE := gets _state.
Definition store_state (s : STATE) : M W unit := modify (set_state s).

(** The body of the [switch] of [Run], for the value [st] that
    [_state.load()] gave. *)
Definition Run_from (st : STATE) : M W unit :=
  match st with
  | RESET =>
      RegisterSetBits (Register_CNTL3 hdr) (CNTL3_SRST hdr) ;;
      t <- now ;;
      modify (set_reset_timestamp t) ;;
      store_state WAIT_FOR_RESET ;;
      ScheduleDelayed (ms 50)

  | WAIT_FOR_RESET =>
      wai <- RegisterRead (Register_WAI hdr) ;;
      complete <-
        (if wai =? Device_ID hdr then
           cntl3 <- RegisterRead (Register_CNTL3 hdr) ;;
           ret (Z.land cntl3 (CNTL3_SRST hdr) =? 0)
         else ret false) ;;
      if (complete : bool) then
        store_state CONFIGURE ;;
        ScheduleNow
      else
        e <- (t0 <- gets _reset_timestamp ;; elapsed t0) ;;
        if ms 100 <? e then
          store_state RESET ;;
          ScheduleNow
        else
          ScheduleDelayed (ms 50)

  | CONFIGURE =>
      ok <- Configure ;;
      if (ok : bool) then
        store_state READ ;;
        ScheduleOnInterval (ms 20) (ms 20)
      else
        ScheduleDelayed (ms 50)

  | READ =>
      let buffer := repeat 0 7 in
      perf_begin_transfer ;;
      timestamp_sample <- now ;;
      let cmd := uint8 (Register_STAT hdr) in
      r <- i2c_transfer [cmd] buffer ;;
      failure <-
        (if negb (fst r =? PX4_OK px) then perf_count_bad_transfer ;; ret true
         else ret false) ;;
      perf_end_transfer ;;
      let buffer := snd r in
      let STAT := uint8 (nth 0 buffer 0) in
      let DATAXL := uint8 (nth 1 buffer 0) in
      let DATAXH := uint8 (nth 2 buffer 0) in
      let DATAYL := uint8 (nth 3 buffer 0) in
      let DATAYH := uint8 (nth 4 buffer 0) in
      let DATAZL := uint8 (nth 5 buffer 0) in
      let DATAZH := uint8 (nth 6 buffer 0) in
      (if truthy STAT && truthy (STAT_DRDY hdr) then
         let x := combine DATAXH DATAXL in
         let y := combine DATAYH DATAYL in
         let z := combine DATAZH DATAZL in
         px4_mag (mag_update timestamp_sample x y z)
       else ret tt) ;;
      due <-
        (if (failure : bool) then ret true
         else
           e <- (t0 <- gets _last_config_check_timestamp ;; elapsed t0) ;;
           ret (ms 100 <? e)) ;;
      if (due : bool) then
        i <- gets _checked_register ;;
        match nth_error (_register_cfg hdr) i with
        | None => undefined
        | Some reg_cfg =>
            ok <- RegisterCheck reg_cfg true ;;
            if (ok : bool) then
              modify (set_last_config_check_timestamp timestamp_sample) ;;
              modify (set_checked_register
                        (Nat.modulo (i + 1) (size_register_cfg hdr)))
            else
              store_state CONFIGURE ;;
              ScheduleNow
        end
      else ret tt

  | REQUEST_STOP =>
      ScheduleClear ;;
      store_state STOPPED

  | STOPPED => ret tt
  end.

Definition Run : M W unit :=
  st <- load_state ;;
  Run_from st.

(** [Reset()]: the value returned is always [true]. *)
Definition Reset : M W bool :=
  store_state RESET ;;
  ScheduleClear ;;
  ScheduleNow ;;
  ret true.

(** *** Stop

    [Stop] runs on the caller's thread while the work queue runs the step
    function, one invocation at a time.  The two threads meet in [_state]
    and in the schedule only, so what matters is where the work queue gets
    to run with respect to the load, the store and the [ScheduleNow] of
    [Stop].  A [preemption] gives, for one round of the loop, the times at
    which the work queue gets to run, each with the world at that time:
    between the load and the store, across the store (an invocation in
    flight, which loaded the state before the store and does the rest of
    its step after it), between the store and the call of [ScheduleNow],
    and before the next load, while [Stop] sleeps. *)

(** Modelled from the spec: the work queue, which is not among the sources
    ("a scheduler/work-queue that invokes the core's step function at
    caller-requested future times (one-shot or periodic), and that can be
    cancelled").  An invocation is pending when one has been asked for and
    the schedule has not been cleared since: the newest call received is a
    request.  When a pending invocation is run is the work queue's choice;
    with nothing pending the work queue runs nothing.  A request is not
    taken off when it is served, so that a periodic request and a one-shot
    request are treated alike: the work queues of the model include every
    real one, and what holds for all of them holds for a real one. *)
Definition pending (calls : list sched_call) : bool :=
  match calls with
  | [] => false
  | ScheduleClear_ :: _ => false
  | _ :: _ => true
  end.

Definition when_pending (m : M W unit) : M W unit :=
  calls <- gets work_queue ;;
  if pending calls then m else ret tt.

Definition Run_at (w : W) : M W unit :=
  modify (set_world w) ;; Run.

Fixpoint Run_each (ws : list W) : M W unit :=
  match ws with
  | [] => ret tt
  | w :: rest => Run_at w ;; Run_each rest
  end.

(** The work queue gets to run at each of the times [ws]: it runs the step
    function when an invocation is pending. *)
Fixpoint Deliver (ws : list W) : M W unit :=
  match ws with
  | [] => ret tt
  | w :: rest => when_pending (Run_at w) ;; Deliver rest
  end.

Record preemption : Type := {
  after_load : list W;
  in_flight : option W;
  after_store : list W;
  during_usleep : list W
}.

Definition no_preemption : preemption :=
  {| after_load := []; in_flight := None;
     after_store := []; during_usleep := [] |}.

(** The rest of the invocation in flight, which loaded [seen] (the schedule
    has not changed since it started). *)
Definition finish_in_flight (p : preemption) (seen : STATE) : M W unit :=
  match in_flight p with
  | Some w => when_pending (modify (set_world w) ;; Run_from seen)
  | None => ret tt
  end.

(** The work queue delivers the invocation that this round of [Stop] asks
    for: no invocation is in flight when [Stop] stores [REQUEST_STOP], and
    the work queue gets to run between the call of [ScheduleNow] and the
    next test of the loop. *)
Definition delivers (p : preemption) : Prop :=
  in_flight p = None /\ during_usleep p <> [].

(** The body of the loop of [Stop], with the work queue in between. *)
Definition Stop_round (p : preemption) : M W unit :=
  Deliver (after_load p) ;;
  seen <- load_state ;;
  store_state REQUEST_STOP ;;
  finish_in_flight p seen ;;
  Deliver (after_store p) ;;
  ScheduleNow ;;
  Deliver (during_usleep p).

(** The loop of [Stop]; [None] also when [fuel] rounds were not enough. *)
Fixpoint Stop (fuel : nat) (wq : list preemption) : M W unit :=
  match fuel with
  | O => undefined
  | S fuel' =>
      st <- load_state ;;
      if negb (STATE_eqb st STOPPED) then
        Stop_round (hd no_preemption wq) ;;
        Stop fuel' (tl wq)
      else ret tt
  end.

End Driver.


(** ** What the bus and the clock answer

    The theorems speak about a run of the driver through what the platform
    answers in the world the run starts in. *)

Section Observations.
Context {W : Type}.
Variable px : Platform W.
Variable hdr : Registers.

(** Reading register [reg_] in world [w]: the byte received and the world
    after the transfer. *)
Definition reg_read (reg_ : Z) (w : W) : Z * W :=
  let '(_, buf, w') := transfer3 px (read_cmd hdr reg_) w in
  (uint8 (nth 1 buf 0), w').

(** The world after writing [value] to register [reg_]. *)
Definition reg_write (reg_ value : Z) (w : W) : W :=
  snd (transfer3 px [uint8 reg_; value] w).

(** The identity register reads back the device signature and the
    software-reset bit reads back clear (the second register is only read
    when the first one matches). *)
Definition reset_complete (w : W) : bool * W :=
  let '(wai, w1) := reg_read (Register_WAI hdr) w in
  if wai =? Device_ID hdr then
    let '(cntl3, w2) := reg_read (Register_CNTL3 hdr) w1 in
    (Z.land cntl3 (CNTL3_SRST hdr) =? 0, w2)
  else (false, w1).

(** The bulk read of a sampling cycle started in world [w]: the capture
    timestamp, the status of the transfer, the receive buffer after it and
    the world after it. *)
Definition bulk_read (w : W) : Z * Z * list Z * W :=
  let '(ts, w1) := hrt_absolute_time px w in
  let '(rc, buf, w2) := transfer px [uint8 (Register_STAT hdr)] (repeat 0 7) w1 in
  (ts, rc, buf, w2).

(** Whether the sampling cycle that starts in [d] runs the incremental
    health check: the transfer failed, or more than 100 ms have elapsed
    since the last check (the clock is only asked when the transfer went
    well).  Also gives the world in which the check would start. *)
Definition health_check_due (d : IST8308 W) : bool * W :=
  let '(_, rc, _, w2) := bulk_read (world d) in
  if negb (rc =? (PX4_OK px)) then (true, w2)
  else
    let '(e, w3) := hrt_elapsed_time px (_last_config_check_timestamp d) w2 in
    (ms 100 <? e, w3).

(** The sample decoded from a receive buffer, as handed to the sink. *)
Definition decoded_sample (ts : Z) (buf : list Z) : mag_call :=
  mag_update ts
    (combine (uint8 (nth 2 buf 0)) (uint8 (nth 1 buf 0)))
    (combine (uint8 (nth 4 buf 0)) (uint8 (nth 3 buf 0)))
    (combine (uint8 (nth 6 buf 0)) (uint8 (nth 5 buf 0))).

(** What a sampling cycle hands to the sink: the sample decoded from the
    receive buffer when the test [buffer.STAT && STAT_BIT::DRDY] holds,
    nothing otherwise. *)
Definition forwarded (ts : Z) (buf : list Z) : list mag_call :=
  if truthy (uint8 (nth 0 buf 0)) && truthy (STAT_DRDY hdr)
  then [decoded_sample ts buf] else [].

(** The driver object after the transfer of a sampling cycle: the transfer
    is logged and counted, the sample (if any) is with the sink, the world
    is [w]. *)
Definition after_sampling (d : IST8308 W) (ts rc : Z) (buf : list Z) (w : W)
  : IST8308 W :=
  set_px4_mag (forwarded ts buf ++ _px4_mag d)
    (set_transfer_perf (S (_transfer_perf d))
       (set_bad_transfer_perf
          (if negb (rc =? (PX4_OK px))
           then S (_bad_transfer_perf d) else _bad_transfer_perf d)
          (on_bus [bus_xfer [uint8 (Register_STAT hdr)] 7] w d))).

(** The verdicts of one pass of [RegisterCheck] over a list of entries,
    in order. *)
Fixpoint check_all (regs : list register_config_t) : M W (list bool) :=
  match regs with
  | [] => ret []
  | reg_cfg :: rest =>
      ok <- RegisterCheck px hdr reg_cfg (notify_default hdr) ;;
      oks <- check_all rest ;;
      ret (ok :: oks)
  end.

(** The invocation from [d] to [d'] was a sampling cycle whose health check
    verified the entry under the cursor, found it good and moved the
    cursor on by one, modulo the length of the table. *)
Definition advanced (d d' : IST8308 W) : Prop :=
  _state d = READ /\ _state d' = READ
  /\ _checked_register d'
     = Nat.modulo (_checked_register d + 1) (size_register_cfg hdr)
  /\ exists reg_cfg w v w',
       nth_error (_register_cfg hdr) (_checked_register d) = Some reg_cfg
       /\ health_check_due d = (true, w)
       /\ reg_read (reg reg_cfg) w = (v, w')
       /\ check_value reg_cfg v = true.




(** The states the driver object can be in: as constructed; after an
    invocation of the step function in any world; after [Reset()]; after
    the store or the call of [ScheduleNow] of a round of [Stop]; and after
    an invocation that loaded the state before that store and did the rest
    of its step after it. *)
Inductive reachable : IST8308 W -> Prop :=
| reach_constructed w : reachable (constructed w)
| reach_Run d w d' :
    reachable d -> Run px hdr (set_world w d) = Some (tt, d') -> reachable d'
| reach_Reset d b d' :
    reachable d -> Reset d = Some (b, d') -> reachable d'
| reach_Stop_store d d' :
    reachable d -> store_state REQUEST_STOP d = Some (tt, d') -> reachable d'
| reach_Stop_schedule d d' :
    reachable d -> ScheduleNow d = Some (tt, d') -> reachable d'
| reach_in_flight d w d' :
    reachable d ->
    Run_from px hdr (_state d) (set_world w (set_state REQUEST_STOP d))
    = Some (tt, d') ->
    reachable d'.

End Observations.

Arguments after_load {W} _.
Arguments in_flight {W} _.
Arguments after_store {W} _.
Arguments during_usleep {W} _.

(** ** Start-up

    [probe] and [Init].  The bus initialisation [I2C::init()] of the base
    class and the error status [PX4_ERROR] are declared outside the
    sources: both are parameters. *)

Section Startup.
Context {W : Type}.
Variable px : Platform W.
Variable hdr : Registers.
Variable I2C_init : W -> Z * W.
Variable PX4_ERROR : Z.

Definition probe : M W Z :=
  whoami <- RegisterRead px hdr (Register_WAI hdr) ;;
  if negb (whoami =? Device_ID hdr) then ret PX4_ERROR else ret (PX4_OK px).

Definition Init : M W bool := fun d =>
  let '(r, w) := I2C_init (world d) in
  (if negb (r =? PX4_OK px) then ret false else Reset) (set_world w d).

End Startup.

(** The number of bad verdicts of a pass over the table. *)
Definition failures (oks : list bool) : nat := length (filter negb oks).

(** Every entry of [regs], read one after the other from world [w] on,
    passes the test of [RegisterCheck]. *)
Fixpoint verified {W : Type} (px : Platform W) (hdr : Registers)
  (regs : list register_config_t) (w : W) : bool :=
  match regs with
  | [] => true
  | reg_cfg :: rest =>
      let '(v, w1) := reg_read px hdr (reg reg_cfg) w in
      check_value reg_cfg v && verified px hdr rest w1
  end.

(** The calls on the sink that carry a sample. *)
Definition is_sample (c : mag_call) : bool :=
  match c with
  | mag_update _ _ _ _ => true
  | _ => false
  end.

(** ** A simulated sensor

    A concrete platform on which the driver can be run: a register file, a
    clock, and a script of faults for the coming transfers.  The register
    addresses, the identity and the two status masks are those of the
    sensor's register map; the masks of the table are sample values. *)

Module Sim.

Inductive fault : Type :=
| Good
| Nak
| Abort (received : nat).

Record world : Type := {
  regs : list (Z * Z);
  clock : Z;
  faults : list fault
}.

Fixpoint peek (rs : list (Z * Z)) (a : Z) : Z :=
  match rs with
  | [] => 0
  | (a', v) :: rest => if a' =? a then v else peek rest a
  end.

Definition poke (rs : list (Z * Z)) (a v : Z) : list (Z * Z) := (a, v) :: rs.

Definition next_fault (w : world) : fault * world :=
  match faults w with
  | [] => (Good, w)
  | f :: rest =>
      (f, {| regs := regs w; clock := clock w; faults := rest |})
  end.

(** Software reset completes at once: the SRST bit never reads back. *)
Definition write_reg (w : world) (a v : Z) : world :=
  {| regs := poke (regs w) a (if a =? 50 then Z.land v 254 else v);
     clock := clock w; faults := faults w |}.

Definition sim_transfer3 (cmd : list Z) (w : world) : Z * list Z * world :=
  let '(f, w) := next_fault w in
  match f, cmd with
  | Good, [a; v] =>
      if Z.testbit a 7
      then (0, [a; peek (regs w) (Z.land a 127)], w)
      else (0, cmd, write_reg w a v)
  | _, _ => (-1, cmd, w)
  end.

Fixpoint burst (rs : list (Z * Z)) (a : Z) (n : nat) : list Z :=
  match n with
  | O => []
  | S n' => peek rs a :: burst rs (a + 1) n'
  end.

Definition sim_transfer (send recv : list Z) (w : world) : Z * list Z * world :=
  let '(f, w) := next_fault w in
  match send with
  | [a] =>
      let data := burst (regs w) a (length recv) in
      match f with
      | Good => (0, data, w)
      | Nak => (-1, recv, w)
      | Abort k => (-1, firstn k data ++ skipn k recv, w)
      end
  | _ => (-1, recv, w)
  end.

Definition platform : Platform world := {|
  PX4_OK := 0;
  transfer3 := sim_transfer3;
  transfer := sim_transfer;
  hrt_absolute_time := fun w => (clock w, w);
  hrt_elapsed_time := fun then_ w => (clock w - then_, w)
|}.

Definition registers : Registers := {|
  Device_ID := 8;
  DIR_READ := 128;
  Register_WAI := 0;
  Register_STAT := 16;
  Register_CNTL3 := 50;
  CNTL3_SRST := 1;
  STAT_DRDY := 1;
  _register_cfg :=
    [ mk_cfg 32 0 2;      (* ACTR: suspend mode off *)
      mk_cfg 48 32 64;    (* CNTL1: low noise filter *)
      mk_cfg 49 8 0;      (* CNTL2: continuous mode *)
      mk_cfg 50 0 1;      (* CNTL3: reset bit clear *)
      mk_cfg 52 0 1;      (* CNTL4: dynamic range *)
      mk_cfg 65 36 0 ];   (* OSRCNTL: over-sampling *)
  notify_default := false
|}.

Definition in_state (st : STATE) (w : world) : IST8308 world :=
  set_state st (constructed w).

(** A sensor that is configured as the table asks, holding one sample. *)
Definition healthy (stat : Z) (t : Z) : world := {|
  regs := [ (0, 8); (16, stat);
            (17, 2); (18, 1); (19, 254); (20, 255); (21, 0); (22, 128);
            (32, 0); (48, 32); (49, 8); (50, 0); (52, 0); (65, 36) ];
  clock := t;
  faults := []
|}.

(** The same sensor after the noise-filter register has lost its bits. *)
Definition drifted (stat : Z) (t : Z) : world := {|
  regs := (48, 0) :: regs (healthy stat t);
  clock := t;
  faults := []
|}.

(** A sensor that has not answered the reset yet: wrong identity. *)
Definition silent (t : Z) : world := {|
  regs := [];
  clock := t;
  faults := []
|}.



(** A work queue that gets to run across the store in the first round of
    [Stop], and during the sleep of the second. *)
Definition late_delivery : list (preemption (W := world)) :=
  [ {| after_load := []; in_flight := Some (healthy 1 1010);
       after_store := []; during_usleep := [] |};
    {| after_load := []; in_flight := None; after_store := [];
       during_usleep := [healthy 1 1020] |} ].

(** A work queue that gets to run once in a round of [Stop], between the
    test of the loop and the store. *)
Definition racy : preemption (W := world) :=
  {| after_load := [healthy 1 2000]; in_flight := None;
     after_store := []; during_usleep := [] |}.

(** The healthy sensor when the coming transfers go wrong as [fs] says. *)
Definition faulty (fs : list fault) (stat : Z) (t : Z) : world := {|
  regs := regs (healthy stat t);
  clock := t;
  faults := fs
|}.

End Sim.

(** * Properties *)

(** ** Fixed-width integers *)

Lemma uint8_range (z : Z) : 0 <= uint8 z < 256.
Proof. unfold uint8. apply Z.mod_pos_bound. lia. Qed.

Lemma uint8_small (z : Z) : 0 <= z < 256 -> uint8 z = z.
Proof. intros H. unfold uint8. apply Z.mod_small. exact H. Qed.

Lemma uint8_mask (z : Z) : uint8 z = Z.land z 255.
Proof.
  unfold uint8. change 256 with (2 ^ 8). change 255 with (Z.ones 8).
  rewrite Z.land_ones by lia. reflexivity.
Qed.

Lemma mask_small (z : Z) : 0 <= z < 256 -> Z.land z 255 = z.
Proof. intros H. rewrite <- uint8_mask. apply uint8_small. exact H. Qed.

Lemma truthy_false (z : Z) : truthy z = false -> z = 0.
Proof. unfold truthy. intros H. apply negb_false_iff in H. lia. Qed.

Lemma truthy_true (z : Z) : truthy z = true -> z <> 0.
Proof. unfold truthy. intros H. apply negb_true_iff in H. lia. Qed.

(** [val |= setbits] keeps a byte a byte. *)
Lemma uint8_lor (a b : Z) :
  0 <= a < 256 -> 0 <= b < 256 -> uint8 (Z.lor a b) = Z.lor a b.
Proof.
  intros Ha Hb. rewrite uint8_mask, Z.land_lor_distr_l.
  rewrite (mask_small a Ha), (mask_small b Hb). reflexivity.
Qed.

(** [val &= ~clearbits] keeps a byte a byte, whatever the mask. *)
Lemma uint8_land_lnot (a c : Z) :
  0 <= a < 256 -> uint8 (Z.land a (Z.lnot c)) = Z.land a (Z.lnot c).
Proof.
  intros Ha. rewrite uint8_mask.
  rewrite <- Z.land_assoc, (Z.land_comm (Z.lnot c)), Z.land_assoc.
  rewrite (mask_small a Ha). reflexivity.
Qed.

Lemma lor_byte_range (a b : Z) :
  0 <= a < 256 -> 0 <= b < 256 -> 0 <= Z.lor a b < 256.
Proof.
  intros Ha Hb. rewrite <- (uint8_lor a b Ha Hb). apply uint8_range.
Qed.

(** The two guarded updates of [RegisterSetAndClearBits] compute
    [(val | setbits) & ~clearbits]. *)
Lemma set_and_clear_value (cur setbits clearbits : Z) :
  0 <= cur < 256 -> 0 <= setbits < 256 ->
  (if truthy clearbits
   then uint8 (Z.land (if truthy setbits then uint8 (Z.lor cur setbits) else cur)
                 (Z.lnot clearbits))
   else if truthy setbits then uint8 (Z.lor cur setbits) else cur)
  = Z.land (Z.lor cur setbits) (Z.lnot clearbits).
Proof.
  intros Hc Hs.
  assert (E1 : (if truthy setbits then uint8 (Z.lor cur setbits) else cur)
               = Z.lor cur setbits).
  { destruct (truthy setbits) eqn:T.
    - apply uint8_lor; assumption.
    - apply truthy_false in T. subst. now rewrite Z.lor_0_r. }
  rewrite E1.
  destruct (truthy clearbits) eqn:T.
  - apply uint8_land_lnot. apply lor_byte_range; assumption.
  - apply truthy_false in T. subst. rewrite Z.lnot_0.
    now rewrite Z.land_m1_r.
Qed.

(** [combine] glues two bytes into the bit pattern [msb:lsb]. *)
Lemma lor_shiftl_bytes (msb lsb : Z) :
  0 <= msb < 256 -> 0 <= lsb < 256 ->
  Z.lor (Z.shiftl msb 8) lsb = 256 * msb + lsb.
Proof.
  intros Hm Hl.
  assert (D : Z.land (Z.shiftl msb 8) lsb = 0).
  { apply Z.bits_inj'. intros n Hn.
    rewrite Z.land_spec, Z.bits_0.
    destruct (Z.ltb_spec n 8).
    - rewrite Z.shiftl_spec_low by lia. reflexivity.
    - rewrite (Z.bits_above_log2 lsb n); [apply andb_false_r | lia | ].
      destruct (Z.eq_dec lsb 0) as [->|]; [simpl; lia|].
      assert (Z.log2 lsb < 8) by (apply Z.log2_lt_pow2; lia). lia. }
  pose proof (Z.add_lor_land (Z.shiftl msb 8) lsb) as E.
  rewrite D, Z.add_0_r in E. rewrite E.
  rewrite Z.shiftl_mul_pow2 by lia. change (2 ^ 8) with 256. lia.
Qed.

(** Projections of updated driver objects. *)
Ltac drv_simpl :=
  cbn [_state _reset_timestamp _last_config_check_timestamp _checked_register
       _transfer_perf _bad_register_perf _bad_transfer_perf work_queue
       _px4_mag bus world
       set_state set_reset_timestamp set_last_config_check_timestamp
       set_checked_register set_transfer_perf set_bad_register_perf
       set_bad_transfer_perf set_work_queue set_px4_mag set_bus set_world
       on_bus app fst snd] in *.

(** ** Register access *)

Section RegisterAccess.
Context {W : Type}.
Variable px : Platform W.
Variable hdr : Registers.
Implicit Type d : IST8308 W.

Lemma same_members_refl d : same_members d d.
Proof. unfold same_members. repeat split. Qed.

Lemma same_members_trans d1 d2 d3 :
  same_members d1 d2 -> same_members d2 d3 -> same_members d1 d3.
Proof.
  unfold same_members.
  intros (A1 & A2 & A3 & A4 & A5 & A6 & A7 & A8)
         (B1 & B2 & B3 & B4 & B5 & B6 & B7 & B8).
  repeat split; congruence.
Qed.

Lemma reg_read_range reg_ w : 0 <= fst (reg_read px hdr reg_ w) < 256.
Proof.
  unfold reg_read. destruct (transfer3 px _ w) as [[r buf] w'].
  apply uint8_range.
Qed.

Lemma RegisterRead_run reg_ d v w :
  reg_read px hdr reg_ (world d) = (v, w) ->
  RegisterRead px hdr reg_ d
  = Some (v, on_bus [bus_xfer3 (read_cmd hdr reg_)] w d).
Proof.
  unfold reg_read, RegisterRead, bind, i2c_transfer3, ret.
  destruct (transfer3 px _ (world d)) as [[r buf] w'].
  intros E. inversion E; subst. reflexivity.
Qed.

Lemma RegisterWrite_run reg_ value d :
  RegisterWrite px reg_ value d
  = Some (tt, on_bus [bus_xfer3 [uint8 reg_; value]]
                (reg_write px reg_ value (world d)) d).
Proof.
  unfold reg_write, RegisterWrite, bind, i2c_transfer3, ret.
  destruct (transfer3 px _ (world d)) as [[r buf] w'].
  reflexivity.
Qed.

Lemma on_bus_on_bus c1 w1 c2 w2 d :
  on_bus c2 w2 (on_bus c1 w1 d) = on_bus (c2 ++ c1) w2 d.
Proof. unfold on_bus. cbn. rewrite app_assoc. reflexivity. Qed.

Lemma RegisterSetAndClearBits_run reg_ setbits clearbits d cur w :
  0 <= setbits < 256 ->
  reg_read px hdr reg_ (world d) = (cur, w) ->
  let value := Z.land (Z.lor cur setbits) (Z.lnot clearbits) in
  RegisterSetAndClearBits px hdr reg_ setbits clearbits d
  = Some (tt, on_bus [bus_xfer3 [uint8 reg_; value];
                      bus_xfer3 (read_cmd hdr reg_)]
                (reg_write px reg_ value w) d).
Proof.
  intros Hs E value. unfold RegisterSetAndClearBits, bind.
  rewrite (RegisterRead_run _ _ _ _ E).
  pose proof (reg_read_range reg_ (world d)) as Hc. rewrite E in Hc.
  cbv zeta.
  rewrite (set_and_clear_value cur setbits clearbits Hc Hs).
  rewrite RegisterWrite_run. rewrite on_bus_on_bus. reflexivity.
Qed.

(** A check that passes: one read, nothing written. *)
Lemma RegisterCheck_pass reg_cfg notify d v w :
  reg_read px hdr (reg reg_cfg) (world d) = (v, w) ->
  check_value reg_cfg v = true ->
  RegisterCheck px hdr reg_cfg notify d
  = Some (true, on_bus [bus_xfer3 (read_cmd hdr (reg reg_cfg))] w d).
Proof.
  intros E C. unfold RegisterCheck, bind.
  rewrite (RegisterRead_run _ _ _ _ E). rewrite C. reflexivity.
Qed.

(** A check that fails: the read, then one read-modify-write. *)
Lemma RegisterCheck_fail reg_cfg notify d v w cur w' :
  0 <= set_bits reg_cfg < 256 ->
  reg_read px hdr (reg reg_cfg) (world d) = (v, w) ->
  check_value reg_cfg v = false ->
  reg_read px hdr (reg reg_cfg) w = (cur, w') ->
  let value :=
    Z.land (Z.lor cur (set_bits reg_cfg)) (Z.lnot (clear_bits reg_cfg)) in
  RegisterCheck px hdr reg_cfg notify d
  = Some (false,
          set_bad_register_perf
            (if notify then S (_bad_register_perf d) else _bad_register_perf d)
            (on_bus [bus_xfer3 [uint8 (reg reg_cfg); value];
                     bus_xfer3 (read_cmd hdr (reg reg_cfg));
                     bus_xfer3 (read_cmd hdr (reg reg_cfg))]
               (reg_write px (reg reg_cfg) value w') d)).
Proof.
  intros Hs E C E' value. unfold RegisterCheck, bind.
  rewrite (RegisterRead_run _ _ _ _ E). rewrite C. cbn [negb].
  rewrite (RegisterSetAndClearBits_run _ _ (clear_bits reg_cfg) _ cur w' Hs)
    by exact E'.
  cbv zeta. rewrite on_bus_on_bus. fold value.
  destruct notify; reflexivity.
Qed.

(** The verdict of [RegisterCheck] is the test of the byte it read first;
    the driver object keeps its state, cursor, timestamps and queues. *)
Lemma RegisterCheck_verdict reg_cfg notify d :
  exists d',
    RegisterCheck px hdr reg_cfg notify d
    = Some (check_value reg_cfg (fst (reg_read px hdr (reg reg_cfg) (world d))), d')
    /\ same_members d d'.
Proof.
  unfold RegisterCheck, bind, same_members.
  destruct (reg_read px hdr (reg reg_cfg) (world d)) as [v w] eqn:E.
  rewrite (RegisterRead_run _ _ _ _ E). cbn [fst].
  destruct (check_value reg_cfg v); cbn [negb].
  - eexists. split; [reflexivity|]. cbn. repeat split.
  - unfold RegisterSetAndClearBits, bind.
    destruct (reg_read px hdr (reg reg_cfg) w) as [cur w'] eqn:E'.
    rewrite (RegisterRead_run _ _ cur w') by exact E'.
    rewrite RegisterWrite_run.
    destruct notify; eexists; (split; [reflexivity|]); cbn; repeat split.
Qed.
End RegisterAccess.

(** ** The step function, state by state *)

Section StepFunction.
Context {W : Type}.
Variable px : Platform W.
Variable hdr : Registers.
Implicit Type d : IST8308 W.

Lemma Run_unfold d : Run px hdr d = Run_from px hdr (_state d) d.
Proof. reflexivity. Qed.

(** The branches of the step function are stated for [Run_from], which does
    not look at the state stored in the driver object: they also describe
    an invocation whose load of the state came before a store by [Stop]. *)
Lemma Run_from_RESET d cur w t w' :
  0 <= CNTL3_SRST hdr < 256 ->
  reg_read px hdr (Register_CNTL3 hdr) (world d) = (cur, w) ->
  let value := Z.lor cur (CNTL3_SRST hdr) in
  hrt_absolute_time px (reg_write px (Register_CNTL3 hdr) value w) = (t, w') ->
  exists d',
    Run_from px hdr RESET d = Some (tt, d')
    /\ _state d' = WAIT_FOR_RESET
    /\ _reset_timestamp d' = t
    /\ work_queue d' = ScheduleDelayed_ 50000 :: work_queue d
    /\ bus d' = bus_xfer3 [uint8 (Register_CNTL3 hdr); value]
                :: bus_xfer3 (read_cmd hdr (Register_CNTL3 hdr)) :: bus d
    /\ _checked_register d' = _checked_register d.
Proof.
  intros Hs E value T.
  unfold Run_from, RegisterSetBits, bind.
  rewrite (RegisterSetAndClearBits_run px hdr _ _ 0 d cur w Hs E).
  rewrite Z.lnot_0, Z.land_m1_r. fold value.
  unfold now. cbn [world on_bus set_bus set_world]. rewrite T.
  eexists. split; [reflexivity|]. cbn. repeat split.
Qed.

Lemma Run_from_WAIT_FOR_RESET_complete d w :
  reset_complete px hdr (world d) = (true, w) ->
  exists d',
    Run_from px hdr WAIT_FOR_RESET d = Some (tt, d')
    /\ _state d' = CONFIGURE
    /\ work_queue d' = ScheduleNow_ :: work_queue d
    /\ _checked_register d' = _checked_register d.
Proof.
  intros C. unfold Run_from, bind.
  unfold reset_complete in C.
  destruct (reg_read px hdr (Register_WAI hdr) (world d)) as [wai w1] eqn:E1.
  rewrite (RegisterRead_run _ _ _ _ _ _ E1).
  destruct (wai =? Device_ID hdr).
  - destruct (reg_read px hdr (Register_CNTL3 hdr) w1) as [c3 w2] eqn:E2.
    unfold bind. rewrite (RegisterRead_run px hdr _ _ c3 w2) by exact E2.
    inversion C as [[C1 C2]]. unfold ret at 1. rewrite C1.
    eexists. split; [reflexivity|]. cbn. repeat split.
  - discriminate C.
Qed.

Lemma Run_from_WAIT_FOR_RESET_pending d w e w' :
  reset_complete px hdr (world d) = (false, w) ->
  hrt_elapsed_time px (_reset_timestamp d) w = (e, w') ->
  exists d',
    Run_from px hdr WAIT_FOR_RESET d = Some (tt, d')
    /\ _state d' = (if 100000 <? e then RESET else _state d)
    /\ work_queue d'
       = (if 100000 <? e then ScheduleNow_ else ScheduleDelayed_ 50000)
         :: work_queue d
    /\ _checked_register d' = _checked_register d.
Proof.
  intros C T. unfold Run_from, bind.
  unfold reset_complete in C.
  destruct (reg_read px hdr (Register_WAI hdr) (world d)) as [wai w1] eqn:E1.
  rewrite (RegisterRead_run _ _ _ _ _ _ E1).
  destruct (wai =? Device_ID hdr).
  - destruct (reg_read px hdr (Register_CNTL3 hdr) w1) as [c3 w2] eqn:E2.
    unfold bind. rewrite (RegisterRead_run px hdr _ _ c3 w2) by exact E2.
    inversion C as [[C1 C2]]. unfold ret at 1. rewrite C1.
    unfold gets, elapsed. cbn [world on_bus set_bus set_world _reset_timestamp].
    rewrite T. change (ms 100) with 100000.
    destruct (100000 <? e); eexists; (split; [reflexivity|]); cbn;
      repeat split.
  - inversion C as [C2]. unfold ret at 1.
    unfold gets, elapsed. cbn [world on_bus set_bus set_world _reset_timestamp].
    rewrite T. change (ms 100) with 100000.
    destruct (100000 <? e); eexists; (split; [reflexivity|]); cbn;
      repeat split.
Qed.

Lemma Run_WAIT_FOR_RESET_complete d w :
  _state d = WAIT_FOR_RESET ->
  reset_complete px hdr (world d) = (true, w) ->
  exists d',
    Run px hdr d = Some (tt, d')
    /\ _state d' = CONFIGURE
    /\ work_queue d' = ScheduleNow_ :: work_queue d
    /\ _checked_register d' = _checked_register d.
Proof.
  intros St C. rewrite Run_unfold, St.
  exact (Run_from_WAIT_FOR_RESET_complete d w C).
Qed.

Lemma Run_WAIT_FOR_RESET_pending d w e w' :
  _state d = WAIT_FOR_RESET ->
  reset_complete px hdr (world d) = (false, w) ->
  hrt_elapsed_time px (_reset_timestamp d) w = (e, w') ->
  exists d',
    Run px hdr d = Some (tt, d')
    /\ _state d' = (if 100000 <? e then RESET else WAIT_FOR_RESET)
    /\ work_queue d'
       = (if 100000 <? e then ScheduleNow_ else ScheduleDelayed_ 50000)
         :: work_queue d
    /\ _checked_register d' = _checked_register d.
Proof.
  intros St C T. rewrite Run_unfold, St.
  destruct (Run_from_WAIT_FOR_RESET_pending d w e w' C T) as (d' & R & S' & Q).
  rewrite St in S'. now exists d'.
Qed.
End StepFunction.

(** ** Configuration *)

Section Configuration.
Context {W : Type}.
Variable px : Platform W.
Variable hdr : Registers.
Implicit Type d : IST8308 W.

(** One pass over the table always completes, with one verdict per entry. *)
Lemma check_all_total regs d :
  exists oks d',
    check_all px hdr regs d = Some (oks, d')
    /\ length oks = length regs
    /\ same_members d d'.
Proof.
  revert d. induction regs as [|reg_cfg rest IH]; intros d.
  - exists [], d. repeat split; auto using same_members_refl.
  - cbn [check_all]. unfold bind.
    destruct (RegisterCheck_verdict px hdr reg_cfg (notify_default hdr) d)
      as (d1 & E1 & F1).
    rewrite E1.
    destruct (IH d1) as (oks & d2 & E2 & L2 & F2).
    rewrite E2. eexists _, d2. split; [reflexivity|]. split.
    + cbn. now rewrite L2.
    + eapply same_members_trans; eassumption.
Qed.

(** The flag of the loop of [Configure] is the conjunction of the verdicts. *)
Lemma Configure_loop_verdicts regs success d oks d' :
  check_all px hdr regs d = Some (oks, d') ->
  Configure_loop px hdr regs success d
  = Some (success && forallb (fun ok => ok) oks, d').
Proof.
  revert success d oks d'.
  induction regs as [|reg_cfg rest IH]; intros success d oks d' E.
  - cbn in E. inversion E; subst. cbn. now rewrite andb_true_r.
  - cbn [check_all Configure_loop] in *. unfold bind in *.
    destruct (RegisterCheck px hdr reg_cfg (notify_default hdr) d)
      as [[ok d1]|]; [|discriminate].
    destruct (check_all px hdr rest d1) as [[oks' d2]|] eqn:E2; [|discriminate].
    inversion E; subst. rewrite (IH _ _ _ _ E2).
    destruct ok, success; reflexivity.
Qed.

Lemma Configure_run d oks d1 :
  check_all px hdr (_register_cfg hdr) d = Some (oks, d1) ->
  Configure px hdr d
  = Some (forallb (fun ok => ok) oks,
          set_px4_mag (mag_set_temperature_NAN
                       :: mag_set_scale scale_6_6_LSB_per_uT :: _px4_mag d1) d1).
Proof.
  intros E. unfold Configure, bind.
  rewrite (Configure_loop_verdicts _ true _ _ _ E). reflexivity.
Qed.

Lemma Run_from_CONFIGURE d oks d1 :
  check_all px hdr (_register_cfg hdr) d = Some (oks, d1) ->
  exists d',
    Run_from px hdr CONFIGURE d = Some (tt, d')
    /\ _state d' = (if forallb (fun ok => ok) oks then READ else _state d)
    /\ work_queue d'
       = (if forallb (fun ok => ok) oks
          then ScheduleOnInterval_ 20000 20000 else ScheduleDelayed_ 50000)
         :: work_queue d
    /\ _px4_mag d'
       = mag_set_temperature_NAN :: mag_set_scale scale_6_6_LSB_per_uT
         :: _px4_mag d
    /\ _checked_register d' = _checked_register d.
Proof.
  intros E. unfold Run_from, bind.
  rewrite (Configure_run _ _ _ E).
  destruct (check_all_total (_register_cfg hdr) d) as (oks' & d1' & E' & _ & F).
  rewrite E in E'. inversion E'; subst oks' d1'.
  destruct F as (F1 & F2 & F3 & F4 & F5 & F6 & F7 & F8).
  destruct (forallb (fun ok => ok) oks);
    eexists; (split; [reflexivity|]); cbn; repeat split; congruence.
Qed.

Lemma Run_CONFIGURE d oks d1 :
  _state d = CONFIGURE ->
  check_all px hdr (_register_cfg hdr) d = Some (oks, d1) ->
  exists d',
    Run px hdr d = Some (tt, d')
    /\ _state d' = (if forallb (fun ok => ok) oks then READ else CONFIGURE)
    /\ work_queue d'
       = (if forallb (fun ok => ok) oks
          then ScheduleOnInterval_ 20000 20000 else ScheduleDelayed_ 50000)
         :: work_queue d
    /\ _px4_mag d'
       = mag_set_temperature_NAN :: mag_set_scale scale_6_6_LSB_per_uT
         :: _px4_mag d
    /\ _checked_register d' = _checked_register d.
Proof.
  intros St E. rewrite Run_unfold, St.
  destruct (Run_from_CONFIGURE d oks d1 E) as (d' & R & S' & Q).
  rewrite St in S'. now exists d'.
Qed.
End Configuration.

(** ** Sampling *)

Section Sampling.
Context {W : Type}.
Variable px : Platform W.
Variable hdr : Registers.
Implicit Type d : IST8308 W.

Ltac open_bulk_read B Hd :=
  unfold health_check_due in Hd; rewrite B in Hd;
  unfold bulk_read in B;
  match type of B with
  | context [hrt_absolute_time px ?w] =>
      let T := fresh "T" in
      destruct (hrt_absolute_time px w) as [ts' w1] eqn:T
  end;
  match type of B with
  | context [transfer px ?s ?r ?w] =>
      let X := fresh "X" in
      destruct (transfer px s r w) as [[rc' buf'] w2'] eqn:X
  end;
  inversion B; subst; clear B;
  unfold Run_from, bind, perf_begin_transfer, ret at 1, now, i2c_transfer;
  match goal with
  | T : hrt_absolute_time px _ = _ |- _ => rewrite T
  end;
  cbn [world set_world];
  match goal with
  | X : transfer px _ _ _ = _ |- _ => rewrite X
  end;
  cbn [fst snd].

Lemma Run_from_READ_idle d ts rc buf w2 w3 :
  bulk_read px hdr (world d) = (ts, rc, buf, w2) ->
  health_check_due px hdr d = (false, w3) ->
  exists d',
    Run_from px hdr READ d = Some (tt, d')
    /\ _state d' = _state d
    /\ _checked_register d' = _checked_register d
    /\ _last_config_check_timestamp d' = _last_config_check_timestamp d
    /\ work_queue d' = work_queue d
    /\ bus d' = bus_xfer [uint8 (Register_STAT hdr)] 7 :: bus d
    /\ _px4_mag d' = forwarded hdr ts buf ++ _px4_mag d
    /\ rc = (PX4_OK px)
    /\ _bad_transfer_perf d' = _bad_transfer_perf d.
Proof.
  intros B Hd.
  open_bulk_read B Hd.
  unfold forwarded.
  destruct (Z.eqb_spec rc (PX4_OK px)) as [Hrc|Hrc]; cbn [negb] in *;
    [|discriminate Hd].
  unfold ret at 1, perf_end_transfer, modify.
  destruct (truthy (uint8 (nth 0 buf 0)) && truthy (STAT_DRDY hdr));
    unfold px4_mag, modify, ret at 1, gets, elapsed;
    cbn [world set_world set_bus set_transfer_perf set_px4_mag
         _last_config_check_timestamp];
    destruct (hrt_elapsed_time px (_last_config_check_timestamp d) w2)
      as [e w3'];
    inversion Hd as [[Hd1 Hd2]]; unfold ret at 1;
    change (ms 100) with 100000; rewrite Hd1;
    eexists; (split; [reflexivity|]); cbn; repeat split; assumption.
Qed.

(** A cycle whose health check is due comes down to the check of the entry
    under the cursor. *)
Lemma Run_from_READ_due d ts rc buf w2 w3 reg_cfg ok d1 :
  bulk_read px hdr (world d) = (ts, rc, buf, w2) ->
  health_check_due px hdr d = (true, w3) ->
  nth_error (_register_cfg hdr) (_checked_register d) = Some reg_cfg ->
  RegisterCheck px hdr reg_cfg true (after_sampling px hdr d ts rc buf w3)
  = Some (ok, d1) ->
  Run_from px hdr READ d
  = Some (tt,
          if ok
          then set_checked_register
                 (Nat.modulo (_checked_register d + 1) (size_register_cfg hdr))
                 (set_last_config_check_timestamp ts d1)
          else set_work_queue (ScheduleNow_ :: work_queue d1)
                 (set_state CONFIGURE d1)).
Proof.
  intros B Hd N C.
  open_bulk_read B Hd.
  unfold after_sampling, forwarded in C.
  destruct (negb (rc =? (PX4_OK px)));
    unfold perf_count_bad_transfer, ret at 1, perf_end_transfer, modify;
    destruct (truthy (uint8 (nth 0 buf 0)) && truthy (STAT_DRDY hdr));
    unfold px4_mag, modify, ret at 1, gets, elapsed;
    drv_simpl;
    try (destruct (hrt_elapsed_time px (_last_config_check_timestamp d) w2)
           as [e w3'];
         change (ms 100) with 100000 in *;
         unfold ret at 1);
    inversion Hd; subst;
    try match goal with
        | H : (100000 <? _) = true |- _ => rewrite H
        end;
    drv_simpl; rewrite N;
    match goal with
    | |- context [RegisterCheck px hdr reg_cfg true ?x] =>
        match type of C with
        | RegisterCheck _ _ _ _ ?y = _ =>
            replace x with y by (destruct d; reflexivity)
        end
    end;
    rewrite C; destruct ok; destruct d1; reflexivity.
Qed.

Lemma bulk_read_total w :
  exists ts rc buf w2, bulk_read px hdr w = (ts, rc, buf, w2).
Proof.
  destruct (bulk_read px hdr w) as [[[ts rc] buf] w2]. now eexists _, _, _, _.
Qed.

Lemma Run_from_READ_pass d ts rc buf w2 w3 reg_cfg v w4 :
  bulk_read px hdr (world d) = (ts, rc, buf, w2) ->
  health_check_due px hdr d = (true, w3) ->
  nth_error (_register_cfg hdr) (_checked_register d) = Some reg_cfg ->
  reg_read px hdr (reg reg_cfg) w3 = (v, w4) ->
  check_value reg_cfg v = true ->
  exists d',
    Run_from px hdr READ d = Some (tt, d')
    /\ _state d' = _state d
    /\ _checked_register d'
       = Nat.modulo (_checked_register d + 1) (size_register_cfg hdr)
    /\ _last_config_check_timestamp d' = ts
    /\ work_queue d' = work_queue d
    /\ bus d' = bus_xfer3 (read_cmd hdr (reg reg_cfg))
                :: bus_xfer [uint8 (Register_STAT hdr)] 7 :: bus d
    /\ _px4_mag d' = forwarded hdr ts buf ++ _px4_mag d
    /\ _bad_transfer_perf d'
       = (if rc =? (PX4_OK px)
          then _bad_transfer_perf d else S (_bad_transfer_perf d)).
Proof.
  intros B Hd N E C.
  erewrite Run_from_READ_due; try eassumption.
  2:{ apply RegisterCheck_pass with (v := v) (w := w4); assumption. }
  eexists. split; [reflexivity|]. cbn. repeat split; try assumption.
  now destruct (rc =? (PX4_OK px)).
Qed.

Lemma Run_from_READ_fail d ts rc buf w2 w3 reg_cfg v w4 :
  bulk_read px hdr (world d) = (ts, rc, buf, w2) ->
  health_check_due px hdr d = (true, w3) ->
  nth_error (_register_cfg hdr) (_checked_register d) = Some reg_cfg ->
  reg_read px hdr (reg reg_cfg) w3 = (v, w4) ->
  check_value reg_cfg v = false ->
  exists d',
    Run_from px hdr READ d = Some (tt, d')
    /\ _state d' = CONFIGURE
    /\ work_queue d' = ScheduleNow_ :: work_queue d
    /\ _checked_register d' = _checked_register d
    /\ _last_config_check_timestamp d' = _last_config_check_timestamp d
    /\ _px4_mag d' = forwarded hdr ts buf ++ _px4_mag d
    /\ _bad_transfer_perf d'
       = (if rc =? (PX4_OK px)
          then _bad_transfer_perf d else S (_bad_transfer_perf d)).
Proof.
  intros B Hd N E C.
  destruct (RegisterCheck_verdict px hdr reg_cfg true
              (after_sampling px hdr d ts rc buf w3)) as (d1 & R & F).
  change (world (after_sampling px hdr d ts rc buf w3)) with w3 in R.
  rewrite E in R. cbn [fst] in R. rewrite C in R.
  erewrite Run_from_READ_due; try eassumption.
  destruct F as (F1 & F2 & F3 & F4 & F5 & F6 & F7 & F8).
  eexists. split; [reflexivity|]. cbn in *. repeat split; try congruence.
  rewrite F8. now destruct (rc =? (PX4_OK px)).
Qed.

Lemma Run_READ_idle d ts rc buf w2 w3 :
  _state d = READ ->
  bulk_read px hdr (world d) = (ts, rc, buf, w2) ->
  health_check_due px hdr d = (false, w3) ->
  exists d',
    Run px hdr d = Some (tt, d')
    /\ _state d' = READ
    /\ _checked_register d' = _checked_register d
    /\ _last_config_check_timestamp d' = _last_config_check_timestamp d
    /\ work_queue d' = work_queue d
    /\ bus d' = bus_xfer [uint8 (Register_STAT hdr)] 7 :: bus d
    /\ _px4_mag d' = forwarded hdr ts buf ++ _px4_mag d
    /\ rc = (PX4_OK px)
    /\ _bad_transfer_perf d' = _bad_transfer_perf d.
Proof.
  intros St B Hd. rewrite Run_unfold, St.
  destruct (Run_from_READ_idle d ts rc buf w2 w3 B Hd) as (d' & R & S' & Q).
  rewrite St in S'. now exists d'.
Qed.

(** The health check passes: the cursor moves on, the driver keeps reading. *)
Lemma Run_READ_pass d ts rc buf w2 w3 reg_cfg v w4 :
  _state d = READ ->
  bulk_read px hdr (world d) = (ts, rc, buf, w2) ->
  health_check_due px hdr d = (true, w3) ->
  nth_error (_register_cfg hdr) (_checked_register d) = Some reg_cfg ->
  reg_read px hdr (reg reg_cfg) w3 = (v, w4) ->
  check_value reg_cfg v = true ->
  exists d',
    Run px hdr d = Some (tt, d')
    /\ _state d' = READ
    /\ _checked_register d'
       = Nat.modulo (_checked_register d + 1) (size_register_cfg hdr)
    /\ _last_config_check_timestamp d' = ts
    /\ work_queue d' = work_queue d
    /\ bus d' = bus_xfer3 (read_cmd hdr (reg reg_cfg))
                :: bus_xfer [uint8 (Register_STAT hdr)] 7 :: bus d
    /\ _px4_mag d' = forwarded hdr ts buf ++ _px4_mag d
    /\ _bad_transfer_perf d'
       = (if rc =? (PX4_OK px)
          then _bad_transfer_perf d else S (_bad_transfer_perf d)).
Proof.
  intros St B Hd N E C. rewrite Run_unfold, St.
  destruct (Run_from_READ_pass d ts rc buf w2 w3 reg_cfg v w4 B Hd N E C)
    as (d' & R & S' & Q).
  rewrite St in S'. now exists d'.
Qed.

(** The health check fails: the driver goes back to [CONFIGURE] at once. *)
Lemma Run_READ_fail d ts rc buf w2 w3 reg_cfg v w4 :
  _state d = READ ->
  bulk_read px hdr (world d) = (ts, rc, buf, w2) ->
  health_check_due px hdr d = (true, w3) ->
  nth_error (_register_cfg hdr) (_checked_register d) = Some reg_cfg ->
  reg_read px hdr (reg reg_cfg) w3 = (v, w4) ->
  check_value reg_cfg v = false ->
  exists d',
    Run px hdr d = Some (tt, d')
    /\ _state d' = CONFIGURE
    /\ work_queue d' = ScheduleNow_ :: work_queue d
    /\ _checked_register d' = _checked_register d
    /\ _last_config_check_timestamp d' = _last_config_check_timestamp d
    /\ _px4_mag d' = forwarded hdr ts buf ++ _px4_mag d
    /\ _bad_transfer_perf d'
       = (if rc =? (PX4_OK px)
          then _bad_transfer_perf d else S (_bad_transfer_perf d)).
Proof.
  intros St B Hd N E C. rewrite Run_unfold, St.
  exact (Run_from_READ_fail d ts rc buf w2 w3 reg_cfg v w4 B Hd N E C).
Qed.
End Sampling.

(** ** Stopping and the cursor *)

Section Lifecycle.
Context {W : Type}.
Variable px : Platform W.
Variable hdr : Registers.
Implicit Type d : IST8308 W.

Lemma Run_REQUEST_STOP d :
  _state d = REQUEST_STOP ->
  Run px hdr d
  = Some (tt, set_state STOPPED
                (set_work_queue (ScheduleClear_ :: work_queue d) d)).
Proof. intros St. rewrite Run_unfold, St. reflexivity. Qed.

Lemma Run_STOPPED d : _state d = STOPPED -> Run px hdr d = Some (tt, d).
Proof. intros St. rewrite Run_unfold, St. reflexivity. Qed.

Lemma RegisterSetAndClearBits_total reg_ setbits clearbits d :
  exists d',
    RegisterSetAndClearBits px hdr reg_ setbits clearbits d = Some (tt, d')
    /\ same_members d d'.
Proof.
  unfold RegisterSetAndClearBits, bind.
  destruct (reg_read px hdr reg_ (world d)) as [cur w] eqn:E.
  rewrite (RegisterRead_run _ _ _ _ _ _ E). cbv zeta.
  rewrite RegisterWrite_run. eexists. split; [reflexivity|].
  unfold same_members. cbn. repeat split.
Qed.

Lemma Run_from_RESET_total d :
  exists d',
    Run_from px hdr RESET d = Some (tt, d')
    /\ _state d' = WAIT_FOR_RESET
    /\ work_queue d' = ScheduleDelayed_ 50000 :: work_queue d
    /\ _checked_register d' = _checked_register d.
Proof.
  unfold Run_from, RegisterSetBits, bind.
  destruct (RegisterSetAndClearBits_total (Register_CNTL3 hdr)
              (CNTL3_SRST hdr) 0 d)
    as (d1 & E & F1 & F2 & F3 & F4 & F5 & F6 & F7 & F8).
  rewrite E. unfold now.
  destruct (hrt_absolute_time px (world d1)) as [t w].
  eexists. split; [reflexivity|]. cbn. repeat split; congruence.
Qed.

Lemma Run_RESET_total d :
  _state d = RESET ->
  exists d',
    Run px hdr d = Some (tt, d')
    /\ _state d' = WAIT_FOR_RESET
    /\ work_queue d' = ScheduleDelayed_ 50000 :: work_queue d
    /\ _checked_register d' = _checked_register d.
Proof.
  intros St. rewrite Run_unfold, St. apply Run_from_RESET_total.
Qed.

(** An invocation never indexes the table out of bounds when the cursor is
    in range, and leaves it in range, whatever state it loaded. *)
Lemma Run_from_cursor_in_range st d :
  (_checked_register d < size_register_cfg hdr)%nat ->
  exists d',
    Run_from px hdr st d = Some (tt, d')
    /\ (_checked_register d' < size_register_cfg hdr)%nat.
Proof.
  intros Hc. destruct st.
  - destruct (Run_from_RESET_total d) as (d' & R & _ & _ & C).
    exists d'. rewrite C. auto.
  - destruct (reset_complete px hdr (world d)) as [[|] w] eqn:RC.
    + destruct (Run_from_WAIT_FOR_RESET_complete px hdr d w RC)
        as (d' & R & _ & _ & C).
      exists d'. rewrite C. auto.
    + destruct (hrt_elapsed_time px (_reset_timestamp d) w) as [e w'] eqn:T.
      destruct (Run_from_WAIT_FOR_RESET_pending px hdr d w e w' RC T)
        as (d' & R & _ & _ & C).
      exists d'. rewrite C. auto.
  - destruct (check_all_total px hdr (_register_cfg hdr) d)
      as (oks & d1 & E & _ & _).
    destruct (Run_from_CONFIGURE px hdr d oks d1 E) as (d' & R & _ & _ & _ & C).
    exists d'. rewrite C. auto.
  - destruct (bulk_read_total px hdr (world d)) as (ts & rc & buf & w2 & B).
    destruct (health_check_due px hdr d) as [[|] w3] eqn:Hd.
    + destruct (nth_error (_register_cfg hdr) (_checked_register d))
        as [reg_cfg|] eqn:N.
      2:{ apply nth_error_None in N. unfold size_register_cfg in Hc. lia. }
      destruct (reg_read px hdr (reg reg_cfg) w3) as [v w4] eqn:E.
      destruct (check_value reg_cfg v) eqn:C.
      * destruct (Run_from_READ_pass px hdr d ts rc buf w2 w3 reg_cfg v w4
                    B Hd N E C) as (d' & R & _ & C' & _).
        exists d'. rewrite C'. split; [exact R|].
        apply Nat.mod_upper_bound. lia.
      * destruct (Run_from_READ_fail px hdr d ts rc buf w2 w3 reg_cfg v w4
                    B Hd N E C) as (d' & R & _ & _ & C' & _).
        exists d'. rewrite C'. auto.
    + destruct (Run_from_READ_idle px hdr d ts rc buf w2 w3 B Hd)
        as (d' & R & _ & C' & _).
      exists d'. rewrite C'. auto.
  - eexists. split; [reflexivity|]. exact Hc.
  - eexists. split; [reflexivity|]. exact Hc.
Qed.

(** One invocation never indexes the table out of bounds when the cursor
    is in range, and either leaves the cursor alone or moves it on after
    a good check. *)
Lemma Run_cursor_step d :
  (_checked_register d < size_register_cfg hdr)%nat ->
  exists d',
    Run px hdr d = Some (tt, d')
    /\ (_checked_register d' = _checked_register d \/ advanced px hdr d d').
Proof.
  intros Hc. destruct (_state d) eqn:St.
  - destruct (Run_RESET_total d St) as (d' & R & _ & _ & C). eauto.
  - destruct (reset_complete px hdr (world d)) as [[|] w] eqn:RC.
    + destruct (Run_WAIT_FOR_RESET_complete px hdr d w St RC)
        as (d' & R & _ & _ & C). eauto.
    + destruct (hrt_elapsed_time px (_reset_timestamp d) w) as [e w'] eqn:T.
      destruct (Run_WAIT_FOR_RESET_pending px hdr d w e w' St RC T)
        as (d' & R & _ & _ & C). eauto.
  - destruct (check_all_total px hdr (_register_cfg hdr) d)
      as (oks & d1 & E & _ & _).
    destruct (Run_CONFIGURE px hdr d oks d1 St E) as (d' & R & _ & _ & _ & C).
    eauto.
  - destruct (bulk_read_total px hdr (world d)) as (ts & rc & buf & w2 & B).
    destruct (health_check_due px hdr d) as [[|] w3] eqn:Hd.
    + destruct (nth_error (_register_cfg hdr) (_checked_register d))
        as [reg_cfg|] eqn:N.
      2:{ apply nth_error_None in N. unfold size_register_cfg in Hc. lia. }
      destruct (reg_read px hdr (reg reg_cfg) w3) as [v w4] eqn:E.
      destruct (check_value reg_cfg v) eqn:C.
      * destruct (Run_READ_pass px hdr d ts rc buf w2 w3 reg_cfg v w4
                    St B Hd N E C) as (d' & R & S' & C' & _).
        exists d'. split; [exact R|]. right.
        unfold advanced. repeat split; try assumption.
        now exists reg_cfg, w3, v, w4.
      * destruct (Run_READ_fail px hdr d ts rc buf w2 w3 reg_cfg v w4
                    St B Hd N E C) as (d' & R & _ & _ & C' & _).
        eauto.
    + destruct (Run_READ_idle px hdr d ts rc buf w2 w3 St B Hd)
        as (d' & R & _ & C' & _). eauto.
  - rewrite (Run_REQUEST_STOP d St). eexists. split; [reflexivity|]. now left.
  - rewrite (Run_STOPPED d St). eauto.
Qed.

Lemma Run_cursor_in_range d :
  (_checked_register d < size_register_cfg hdr)%nat ->
  exists d',
    Run px hdr d = Some (tt, d')
    /\ (_checked_register d' < size_register_cfg hdr)%nat.
Proof.
  intros Hc. destruct (Run_cursor_step d Hc) as (d' & R & [E | A]).
  - exists d'. split; [exact R|]. now rewrite E.
  - exists d'. split; [exact R|]. destruct A as (_ & _ & E & _).
    rewrite E. apply Nat.mod_upper_bound. lia.
Qed.
End Lifecycle.

(** ** Round robin *)








(** ** Consecutive sampling cycles *)

Section Cycles.
Context {W : Type}.
Variable px : Platform W.
Variable hdr : Registers.
Implicit Type d : IST8308 W.

End Cycles.

(** ** Stop *)

Section Stopping.
Context {W : Type}.
Variable px : Platform W.
Variable hdr : Registers.
Implicit Type d : IST8308 W.

Lemma when_pending_run (m : M W unit) d :
  when_pending m d = if pending (work_queue d) then m d else Some (tt, d).
Proof.
  unfold when_pending, bind, gets.
  destruct (pending (work_queue d)); reflexivity.
Qed.

Lemma Deliver_cons w ws d :
  Deliver px hdr (w :: ws) d
  = match (if pending (work_queue d)
           then Run px hdr (set_world w d) else Some (tt, d)) with
    | Some (_, d1) => Deliver px hdr ws d1
    | None => None
    end.
Proof.
  cbn [Deliver]. unfold bind at 1. rewrite when_pending_run.
  destruct (pending (work_queue d)); [|reflexivity].
  unfold Run_at, bind at 1, modify.
  destruct (Run px hdr (set_world w d)) as [[[] d1]|]; reflexivity.
Qed.

Lemma Deliver_cursor ws d :
  (_checked_register d < size_register_cfg hdr)%nat ->
  exists d',
    Deliver px hdr ws d = Some (tt, d')
    /\ (_checked_register d' < size_register_cfg hdr)%nat.
Proof.
  revert d. induction ws as [|w ws IH]; intros d Hc.
  - exists d. now split.
  - rewrite Deliver_cons. destruct (pending (work_queue d)).
    + destruct (Run_cursor_in_range px hdr (set_world w d) Hc)
        as (d1 & R & Hc1).
      rewrite R. apply IH. exact Hc1.
    + apply IH. exact Hc.
Qed.

(** Once a stop is requested, the work queue leaves the driver with the
    request or stopped. *)
Lemma Deliver_stopping ws d :
  _state d = REQUEST_STOP \/ _state d = STOPPED ->
  exists d',
    Deliver px hdr ws d = Some (tt, d')
    /\ (_state d' = REQUEST_STOP \/ _state d' = STOPPED)
    /\ _checked_register d' = _checked_register d.
Proof.
  revert d. induction ws as [|w ws IH]; intros d St.
  - exists d. repeat split; auto.
  - rewrite Deliver_cons. destruct (pending (work_queue d)).
    + destruct St as [St|St].
      * rewrite (Run_REQUEST_STOP px hdr (set_world w d) St).
        match goal with
        | |- context [Deliver px hdr ws ?x] =>
            destruct (IH x (or_intror eq_refl)) as (d' & R & S' & C')
        end.
        exists d'. repeat split; auto.
      * rewrite (Run_STOPPED px hdr (set_world w d) St).
        destruct (IH (set_world w d) (or_intror St)) as (d' & R & S' & C').
        exists d'. repeat split; auto.
    + apply IH. exact St.
Qed.

Lemma Deliver_STOPPED ws d :
  _state d = STOPPED ->
  exists d',
    Deliver px hdr ws d = Some (tt, d')
    /\ _state d' = STOPPED
    /\ _checked_register d' = _checked_register d.
Proof.
  revert d. induction ws as [|w ws IH]; intros d St.
  - exists d. repeat split; auto.
  - rewrite Deliver_cons. destruct (pending (work_queue d)).
    + rewrite (Run_STOPPED px hdr (set_world w d) St).
      destruct (IH (set_world w d) St) as (d' & R & S' & C').
      exists d'. repeat split; auto.
    + apply IH. exact St.
Qed.

(** The pending invocation that finds the request stops the driver. *)
Lemma Deliver_REQUEST_STOP ws d :
  _state d = REQUEST_STOP ->
  pending (work_queue d) = true ->
  ws <> [] ->
  exists d',
    Deliver px hdr ws d = Some (tt, d')
    /\ _state d' = STOPPED
    /\ _checked_register d' = _checked_register d.
Proof.
  intros St P Hws. destruct ws as [|w ws]; [congruence|].
  rewrite Deliver_cons, P.
  rewrite (Run_REQUEST_STOP px hdr (set_world w d) St).
  match goal with
  | |- context [Deliver px hdr ws ?x] =>
      destruct (Deliver_STOPPED ws x eq_refl) as (d' & R & S' & C')
  end.
  exists d'. repeat split; auto.
Qed.

Lemma finish_in_flight_cursor p seen d :
  (_checked_register d < size_register_cfg hdr)%nat ->
  exists d',
    finish_in_flight px hdr p seen d = Some (tt, d')
    /\ (_checked_register d' < size_register_cfg hdr)%nat.
Proof.
  intros Hc. unfold finish_in_flight. destruct (in_flight p) as [w|].
  - rewrite when_pending_run. destruct (pending (work_queue d)).
    + unfold bind, modify.
      apply (Run_from_cursor_in_range px hdr seen (set_world w d)). exact Hc.
    + exists d. now split.
  - exists d. now split.
Qed.

(** One round of the loop of [Stop], whatever the work queue does. *)
Lemma Stop_round_cursor p d :
  (_checked_register d < size_register_cfg hdr)%nat ->
  exists d1,
    Stop_round px hdr p d = Some (tt, d1)
    /\ (_checked_register d1 < size_register_cfg hdr)%nat.
Proof.
  intros Hc. unfold Stop_round. unfold bind at 1.
  destruct (Deliver_cursor (after_load p) d Hc) as (d1 & R1 & Hc1).
  rewrite R1. unfold bind at 1, load_state, gets.
  unfold bind at 1, store_state, modify. unfold bind at 1.
  destruct (finish_in_flight_cursor p (_state d1)
              (set_state REQUEST_STOP d1) Hc1) as (d2 & R2 & Hc2).
  rewrite R2. unfold bind at 1.
  destruct (Deliver_cursor (after_store p) d2 Hc2) as (d3 & R3 & Hc3).
  rewrite R3. unfold bind at 1, ScheduleNow, modify.
  match goal with
  | |- context [Deliver px hdr (during_usleep p) ?x] =>
      destruct (Deliver_cursor (during_usleep p) x Hc3) as (d4 & R4 & Hc4)
  end.
  rewrite R4. exists d4. now split.
Qed.

(** A round that delivers leaves the driver stopped. *)
Lemma Stop_round_delivers p d :
  (_checked_register d < size_register_cfg hdr)%nat ->
  delivers p ->
  exists d1,
    Stop_round px hdr p d = Some (tt, d1)
    /\ (_checked_register d1 < size_register_cfg hdr)%nat
    /\ _state d1 = STOPPED.
Proof.
  intros Hc [Hf Hdel]. unfold Stop_round. unfold bind at 1.
  destruct (Deliver_cursor (after_load p) d Hc) as (d1 & R1 & Hc1).
  rewrite R1. unfold bind at 1, load_state, gets.
  unfold bind at 1, store_state, modify. unfold bind at 1.
  unfold finish_in_flight. rewrite Hf. unfold ret at 1.
  unfold bind at 1.
  destruct (Deliver_stopping (after_store p) (set_state REQUEST_STOP d1)
              (or_introl eq_refl)) as (d2 & R2 & S2 & C2).
  rewrite R2. unfold bind at 1, ScheduleNow, modify.
  assert (Hc2 : (_checked_register d2 < size_register_cfg hdr)%nat)
    by (rewrite C2; exact Hc1).
  destruct S2 as [S2|S2].
  - match goal with
    | |- context [Deliver px hdr (during_usleep p) ?x] =>
        destruct (Deliver_REQUEST_STOP (during_usleep p) x S2 eq_refl Hdel)
          as (d3 & R3 & S3 & C3)
    end.
    rewrite R3. exists d3. split; [reflexivity|]. split; [|exact S3].
    rewrite C3. exact Hc2.
  - match goal with
    | |- context [Deliver px hdr (during_usleep p) ?x] =>
        destruct (Deliver_STOPPED (during_usleep p) x S2)
          as (d3 & R3 & S3 & C3)
    end.
    rewrite R3. exists d3. split; [reflexivity|]. split; [|exact S3].
    rewrite C3. exact Hc2.
Qed.

(** A round in which the work queue runs before the store only: whatever
    its invocations did, the store of [Stop] comes last. *)
Lemma Stop_round_racing p d :
  (_checked_register d < size_register_cfg hdr)%nat ->
  in_flight p = None -> after_store p = [] -> during_usleep p = [] ->
  exists d1,
    Stop_round px hdr p d = Some (tt, d1)
    /\ (_checked_register d1 < size_register_cfg hdr)%nat
    /\ _state d1 = REQUEST_STOP
    /\ pending (work_queue d1) = true.
Proof.
  intros Hc Hf Ha Hu. unfold Stop_round. unfold bind at 1.
  destruct (Deliver_cursor (after_load p) d Hc) as (d1 & R1 & Hc1).
  rewrite R1. unfold bind at 1, load_state, gets.
  unfold bind at 1, store_state, modify. unfold bind at 1.
  unfold finish_in_flight. rewrite Hf, Ha, Hu. cbn [Deliver].
  unfold ret at 1. unfold bind at 1. unfold ret at 1.
  unfold bind at 1, ScheduleNow, modify. unfold ret.
  eexists. split; [reflexivity|]. cbn. repeat split. exact Hc1.
Qed.

Lemma Stop_when_STOPPED fuel wq d :
  _state d = STOPPED -> (1 <= fuel)%nat ->
  Stop px hdr fuel wq d = Some (tt, d).
Proof.
  intros St Hf. destruct fuel as [|fuel]; [lia|].
  cbn [Stop]. unfold bind, load_state, gets. rewrite St. reflexivity.
Qed.

(** Once a round delivers, the loop ends by the next test. *)
Lemma Stop_returns k fuel wq d p :
  (_checked_register d < size_register_cfg hdr)%nat ->
  nth_error wq k = Some p ->
  delivers p ->
  (k + 2 <= fuel)%nat ->
  exists d',
    Stop px hdr fuel wq d = Some (tt, d')
    /\ _state d' = STOPPED
    /\ (_checked_register d' < size_register_cfg hdr)%nat.
Proof.
  revert fuel wq d.
  induction k as [|k IH]; intros fuel wq d Hc Hp Hdel Hfuel.
  - destruct fuel as [|fuel]; try lia.
    destruct wq as [|p0 wq]; [discriminate|]. cbn in Hp. inversion Hp; subst p0.
    cbn [Stop]. unfold bind at 1, load_state at 1, gets at 1.
    destruct (STATE_eqb (_state d) STOPPED) eqn:Q; cbn [negb].
    + exists d. repeat split; auto. now destruct (_state d).
    + cbn [hd tl]. unfold bind at 1.
      destruct (Stop_round_delivers p d Hc Hdel) as (d1 & E & Hc1 & S1).
      rewrite E, (Stop_when_STOPPED fuel wq d1) by (auto; lia).
      exists d1. repeat split; auto.
  - destruct fuel as [|fuel]; try lia.
    destruct wq as [|p0 wq]; [discriminate|]. cbn in Hp.
    cbn [Stop]. unfold bind at 1, load_state at 1, gets at 1.
    destruct (STATE_eqb (_state d) STOPPED) eqn:Q; cbn [negb].
    + exists d. repeat split; auto. now destruct (_state d).
    + cbn [hd tl]. unfold bind at 1.
      destruct (Stop_round_cursor p0 d Hc) as (d1 & E & Hc1).
      rewrite E. apply (IH fuel wq d1 Hc1 Hp Hdel). lia.
Qed.

(** As long as the work queue runs before the store of [Stop] only, the
    loop goes on: the STOPPED that an invocation stores between the test
    and the store is overwritten by the store. *)
Lemma Stop_racing fuel wq d :
  (_checked_register d < size_register_cfg hdr)%nat ->
  _state d <> STOPPED ->
  Forall (fun p => in_flight p = None /\ after_store p = []
                   /\ during_usleep p = []) wq ->
  Stop px hdr fuel wq d = None.
Proof.
  revert wq d. induction fuel as [|fuel IH]; intros wq d Hc St F.
  - reflexivity.
  - cbn [Stop]. unfold bind at 1, load_state at 1, gets at 1.
    destruct (STATE_eqb (_state d) STOPPED) eqn:Q;
      [destruct (_state d); try discriminate Q; congruence|].
    cbn [negb]. unfold bind at 1.
    assert (Hp : in_flight (hd no_preemption wq) = None
                 /\ after_store (hd no_preemption wq) = []
                 /\ during_usleep (hd no_preemption wq) = [])
      by (destruct F; [cbn; auto|assumption]).
    destruct Hp as (Hf & Ha & Hu).
    destruct (Stop_round_racing (hd no_preemption wq) d Hc Hf Ha Hu)
      as (d1 & E & Hc1 & S1 & _).
    rewrite E. apply IH.
    + exact Hc1.
    + rewrite S1. discriminate.
    + destruct F; [constructor|assumption].
Qed.
End Stopping.

(** ** One invocation, whatever the state *)

Section Transitions.
Context {W : Type}.
Variable px : Platform W.
Variable hdr : Registers.
Implicit Type d : IST8308 W.

Lemma health_check_due_on_failure d ts rc buf w2 :
  bulk_read px hdr (world d) = (ts, rc, buf, w2) ->
  rc <> (PX4_OK px) ->
  health_check_due px hdr d = (true, w2).
Proof.
  intros B Hrc. unfold health_check_due. rewrite B.
  destruct (Z.eqb_spec rc (PX4_OK px)); [contradiction|reflexivity].
Qed.

(** What a sampling cycle does with the sample and with the counter of
    failed transfers, whatever the health check does afterwards. *)
Lemma Run_READ_sink d ts rc buf w2 :
  _state d = READ ->
  (_checked_register d < size_register_cfg hdr)%nat ->
  bulk_read px hdr (world d) = (ts, rc, buf, w2) ->
  exists d',
    Run px hdr d = Some (tt, d')
    /\ _px4_mag d' = forwarded hdr ts buf ++ _px4_mag d
    /\ _bad_transfer_perf d'
       = (if rc =? (PX4_OK px)
          then _bad_transfer_perf d else S (_bad_transfer_perf d))
    /\ In (_state d') [READ; CONFIGURE].
Proof.
  intros St Hc B.
  destruct (health_check_due px hdr d) as [[|] w3] eqn:Hd.
  - destruct (nth_error (_register_cfg hdr) (_checked_register d))
      as [reg_cfg|] eqn:N.
    2:{ apply nth_error_None in N. unfold size_register_cfg in Hc. lia. }
    destruct (reg_read px hdr (reg reg_cfg) w3) as [v w4] eqn:E.
    destruct (check_value reg_cfg v) eqn:C.
    + destruct (Run_READ_pass px hdr d ts rc buf w2 w3 reg_cfg v w4
                  St B Hd N E C) as (d' & R & S' & _ & _ & _ & _ & M & P).
      exists d'. rewrite S'. cbn. repeat split; auto.
    + destruct (Run_READ_fail px hdr d ts rc buf w2 w3 reg_cfg v w4
                  St B Hd N E C) as (d' & R & S' & _ & _ & _ & M & P).
      exists d'. rewrite S'. cbn. repeat split; auto.
  - destruct (Run_READ_idle px hdr d ts rc buf w2 w3 St B Hd)
      as (d' & R & S' & _ & _ & _ & _ & M & Hrc & P).
    exists d'. rewrite S', P, Hrc, Z.eqb_refl. cbn. repeat split; auto.
Qed.

(** What an invocation that loaded [st] does to the state: nothing, or a
    store of one of the states of its branch. *)
Lemma Run_from_stores st d :
  (_checked_register d < size_register_cfg hdr)%nat ->
  exists d',
    Run_from px hdr st d = Some (tt, d')
    /\ (_state d' = _state d \/ In (_state d') (stores st)).
Proof.
  intros Hc. destruct st; cbn [stores].
  - destruct (Run_from_RESET_total px hdr d) as (d' & R & S' & _).
    exists d'. rewrite S'. cbn. auto.
  - destruct (reset_complete px hdr (world d)) as [[|] w] eqn:RC.
    + destruct (Run_from_WAIT_FOR_RESET_complete px hdr d w RC)
        as (d' & R & S' & _).
      exists d'. rewrite S'. cbn. auto.
    + destruct (hrt_elapsed_time px (_reset_timestamp d) w) as [e w'] eqn:T.
      destruct (Run_from_WAIT_FOR_RESET_pending px hdr d w e w' RC T)
        as (d' & R & S' & _).
      exists d'. rewrite S'. destruct (100000 <? e); cbn; auto.
  - destruct (check_all_total px hdr (_register_cfg hdr) d)
      as (oks & d1 & E & _ & _).
    destruct (Run_from_CONFIGURE px hdr d oks d1 E) as (d' & R & S' & _).
    exists d'. rewrite S'. destruct (forallb _ oks); cbn; auto.
  - destruct (bulk_read_total px hdr (world d)) as (ts & rc & buf & w2 & B).
    destruct (health_check_due px hdr d) as [[|] w3] eqn:Hd.
    + destruct (nth_error (_register_cfg hdr) (_checked_register d))
        as [reg_cfg|] eqn:N.
      2:{ apply nth_error_None in N. unfold size_register_cfg in Hc. lia. }
      destruct (reg_read px hdr (reg reg_cfg) w3) as [v w4] eqn:E.
      destruct (check_value reg_cfg v) eqn:C.
      * destruct (Run_from_READ_pass px hdr d ts rc buf w2 w3 reg_cfg v w4
                    B Hd N E C) as (d' & R & S' & _).
        exists d'. auto.
      * destruct (Run_from_READ_fail px hdr d ts rc buf w2 w3 reg_cfg v w4
                    B Hd N E C) as (d' & R & S' & _).
        exists d'. rewrite S'. cbn. auto.
    + destruct (Run_from_READ_idle px hdr d ts rc buf w2 w3 B Hd)
        as (d' & R & S' & _).
      exists d'. auto.
  - eexists. split; [reflexivity|]. cbn. auto.
  - eexists. split; [reflexivity|]. auto.
Qed.

(** The transitions of the state machine. *)
Lemma Run_next_state d :
  (_checked_register d < size_register_cfg hdr)%nat ->
  exists d',
    Run px hdr d = Some (tt, d') /\ In (_state d') (next_states (_state d)).
Proof.
  intros Hc. destruct (_state d) eqn:St; cbn [next_states].
  - destruct (Run_RESET_total px hdr d St) as (d' & R & S' & _).
    exists d'. rewrite S'. cbn. auto.
  - destruct (reset_complete px hdr (world d)) as [[|] w] eqn:RC.
    + destruct (Run_WAIT_FOR_RESET_complete px hdr d w St RC)
        as (d' & R & S' & _).
      exists d'. rewrite S'. cbn. auto.
    + destruct (hrt_elapsed_time px (_reset_timestamp d) w) as [e w'] eqn:T.
      destruct (Run_WAIT_FOR_RESET_pending px hdr d w e w' St RC T)
        as (d' & R & S' & _).
      exists d'. rewrite S'. destruct (100000 <? e); cbn; auto.
  - destruct (check_all_total px hdr (_register_cfg hdr) d)
      as (oks & d1 & E & _ & _).
    destruct (Run_CONFIGURE px hdr d oks d1 St E) as (d' & R & S' & _).
    exists d'. rewrite S'. destruct (forallb _ oks); cbn; auto.
  - destruct (bulk_read_total px hdr (world d)) as (ts & rc & buf & w2 & B).
    destruct (Run_READ_sink d ts rc buf w2 St Hc B) as (d' & R & _ & _ & I).
    eauto.
  - rewrite (Run_REQUEST_STOP px hdr d St). eexists. split; [reflexivity|].
    cbn. auto.
  - rewrite (Run_STOPPED px hdr d St). eexists. split; [reflexivity|].
    rewrite St. cbn. auto.
Qed.
(** What a check does on the bus: the read of its register comes first,
    and two more transfers follow when the test fails. *)
Lemma RegisterCheck_reads_first reg_cfg notify d :
  exists d' calls,
    RegisterCheck px hdr reg_cfg notify d
    = Some (check_value reg_cfg
              (fst (reg_read px hdr (reg reg_cfg) (world d))), d')
    /\ same_members d d'
    /\ bus d' = calls ++ bus_xfer3 (read_cmd hdr (reg reg_cfg)) :: bus d
    /\ length calls
       = (if check_value reg_cfg
               (fst (reg_read px hdr (reg reg_cfg) (world d)))
          then 0 else 2)%nat.
Proof.
  unfold RegisterCheck, bind.
  destruct (reg_read px hdr (reg reg_cfg) (world d)) as [v w] eqn:E.
  rewrite (RegisterRead_run _ _ _ _ _ _ E). cbn [fst].
  destruct (check_value reg_cfg v); cbn [negb].
  - eexists _, []. split; [reflexivity|].
    unfold same_members. cbn. repeat split.
  - unfold RegisterSetAndClearBits, bind.
    destruct (reg_read px hdr (reg reg_cfg) w) as [cur w'] eqn:E'.
    rewrite (RegisterRead_run px hdr _ _ cur w') by exact E'.
    rewrite RegisterWrite_run.
    destruct notify; eexists _, [_; _];
      (split; [reflexivity|]); unfold same_members; cbn; repeat split.
Qed.

(** A sampling cycle whose transfer failed: the sample is forwarded as the
    buffer says, the failure is counted, and the health check of the entry
    under the cursor is run at once, in the world the transfer left. *)
Lemma Run_READ_failed_transfer d ts rc buf w2 reg_cfg :
  _state d = READ ->
  nth_error (_register_cfg hdr) (_checked_register d) = Some reg_cfg ->
  bulk_read px hdr (world d) = (ts, rc, buf, w2) ->
  rc <> PX4_OK px ->
  exists d' calls,
    Run px hdr d = Some (tt, d')
    /\ _px4_mag d' = forwarded hdr ts buf ++ _px4_mag d
    /\ _bad_transfer_perf d' = S (_bad_transfer_perf d)
    /\ bus d' = calls ++ bus_xfer3 (read_cmd hdr (reg reg_cfg))
                  :: bus_xfer [uint8 (Register_STAT hdr)] 7 :: bus d
    /\ (if check_value reg_cfg (fst (reg_read px hdr (reg reg_cfg) w2))
        then calls = []
             /\ _state d' = READ
             /\ _checked_register d'
                = Nat.modulo (_checked_register d + 1) (size_register_cfg hdr)
             /\ _last_config_check_timestamp d' = ts
        else length calls = 2%nat
             /\ _state d' = CONFIGURE
             /\ work_queue d' = ScheduleNow_ :: work_queue d
             /\ _checked_register d' = _checked_register d).
Proof.
  intros St N B Hrc.
  pose proof (health_check_due_on_failure d ts rc buf w2 B Hrc) as Hd.
  destruct (RegisterCheck_reads_first reg_cfg true
              (after_sampling px hdr d ts rc buf w2))
    as (d1 & calls & R & F & Bc & L).
  change (world (after_sampling px hdr d ts rc buf w2)) with w2 in R, L.
  rewrite Run_unfold, St.
  rewrite (Run_from_READ_due px hdr d ts rc buf w2 w2 reg_cfg _ d1 B Hd N R).
  destruct F as (F1 & F2 & F3 & F4 & F5 & F6 & F7 & F8).
  assert (M0 : _px4_mag d1 = forwarded hdr ts buf ++ _px4_mag d)
    by (rewrite F6; reflexivity).
  assert (P0 : _bad_transfer_perf d1 = S (_bad_transfer_perf d)).
  { rewrite F8. unfold after_sampling. cbn.
    destruct (Z.eqb_spec rc (PX4_OK px)); [contradiction|reflexivity]. }
  assert (B0 : bus d1 = calls ++ bus_xfer3 (read_cmd hdr (reg reg_cfg))
                          :: bus_xfer [uint8 (Register_STAT hdr)] 7 :: bus d)
    by (rewrite Bc; reflexivity).
  assert (S0 : _state d1 = READ) by (rewrite F1; cbn; exact St).
  assert (Q0 : work_queue d1 = work_queue d) by (rewrite F5; reflexivity).
  assert (C0 : _checked_register d1 = _checked_register d)
    by (rewrite F2; reflexivity).
  destruct (check_value reg_cfg (fst (reg_read px hdr (reg reg_cfg) w2)));
    eexists _, calls; (split; [reflexivity|]);
    cbn [bus _px4_mag _bad_transfer_perf _state _checked_register
         _last_config_check_timestamp work_queue set_checked_register
         set_last_config_check_timestamp set_work_queue set_state];
    (split; [exact M0|]); (split; [exact P0|]); (split; [exact B0|]).
  - repeat split; try assumption. now apply length_zero_iff_nil.
  - repeat split; try assumption. now rewrite Q0.
Qed.
End Transitions.

(** * The specification of the driver *)

(** ** Sample forwarding and the data-ready bit *)

(** The test of the sampling cycle is a logical conjunction of the status
    byte and of the mask: with a mask that is not zero, the sample is
    forwarded exactly when the status byte is not zero. *)
Lemma forwarded_iff_status_nonzero (hdr : Registers) (ts : Z) (buf : list Z) :
  STAT_DRDY hdr <> 0 ->
  (forwarded hdr ts buf = [decoded_sample ts buf]
   <-> uint8 (nth 0 buf 0) <> 0)
  /\ (forwarded hdr ts buf = [] <-> uint8 (nth 0 buf 0) = 0).
Proof.
  intros Hm. unfold forwarded, truthy.
  destruct (Z.eqb_spec (STAT_DRDY hdr) 0); [contradiction|].
  destruct (Z.eqb_spec (uint8 (nth 0 buf 0)) 0) as [E|E]; cbn.
  - rewrite E. split; split; congruence.
  - split; split; congruence.
Qed.

(** C1 (the code does not meet it).  In the READ state a sample should be
    forwarded to the sink if and only if the data-ready bit is set in the
    status byte.  The code forwards the sample whenever the status byte is
    not zero, also when its data-ready bit is clear.  On the simulated
    sensor, whose data-ready mask is 0x01, a bulk read that returns the
    status byte 0x02 (data overrun set, data ready clear) has its sample
    forwarded: the sink receives (258, -2, -32768). *)
Theorem READ_forwards_sample_with_DRDY_clear :
  (forall (W : Type) (px : Platform W) (hdr : Registers) (d : IST8308 W)
          (ts rc : Z) (buf : list Z) (w2 : W),
     _state d = READ ->
     (_checked_register d < size_register_cfg hdr)%nat ->
     bulk_read px hdr (world d) = (ts, rc, buf, w2) ->
     STAT_DRDY hdr <> 0 ->
     uint8 (nth 0 buf 0) <> 0 ->
     Z.land (uint8 (nth 0 buf 0)) (STAT_DRDY hdr) = 0 ->
     exists d',
       Run px hdr d = Some (tt, d')
       /\ _px4_mag d' = decoded_sample ts buf :: _px4_mag d)
  /\ Z.land 2 (STAT_DRDY Sim.registers) = 0
  /\ exists d',
       Run Sim.platform Sim.registers (Sim.in_state READ (Sim.healthy 2 1000))
       = Some (tt, d')
       /\ _px4_mag d' = [mag_update 1000 258 (-2) (-32768)].
Proof.
  split; [|split].
  - intros W px hdr d ts rc buf w2 St Hc B Hm Hs _.
    destruct (Run_READ_sink px hdr d ts rc buf w2 St Hc B)
      as (d' & R & M & _).
    exists d'. split; [exact R|]. rewrite M.
    destruct (forwarded_iff_status_nonzero hdr ts buf Hm) as [[_ F] _].
    now rewrite (F Hs).
  - reflexivity.
  - eexists. split; [vm_compute; reflexivity|reflexivity].
Qed.

(** ** Register checks *)

(** C7.  When the byte read by [RegisterCheck] fails the test of a table
    entry, the check issues exactly one read-modify-write after its own
    read (the bus sees the read of the check, the read of the correction
    and one write, nothing else), the byte written is the register value
    just read OR [set_bits] AND-NOT [clear_bits], and the check still
    returns failure; in every case the verdict is the test of the byte
    read first, never of the corrected value. *)
Theorem RegisterCheck_corrects_once_and_fails
  {W : Type} (px : Platform W) (hdr : Registers)
  (reg_cfg : register_config_t) (notify : bool) (d : IST8308 W)
  (v : Z) (w : W) (cur : Z) (w' : W) :
  cfg_in_range reg_cfg ->
  reg_read px hdr (reg reg_cfg) (world d) = (v, w) ->
  check_value reg_cfg v = false ->
  reg_read px hdr (reg reg_cfg) w = (cur, w') ->
  let value :=
    Z.land (Z.lor cur (set_bits reg_cfg)) (Z.lnot (clear_bits reg_cfg)) in
  (exists d',
     RegisterCheck px hdr reg_cfg notify d = Some (false, d')
     /\ bus d' = bus_xfer3 [uint8 (reg reg_cfg); value]
                 :: bus_xfer3 (read_cmd hdr (reg reg_cfg))
                 :: bus_xfer3 (read_cmd hdr (reg reg_cfg)) :: bus d
     /\ world d' = reg_write px (reg reg_cfg) value w'
     /\ _state d' = _state d)
  /\ (forall d0, exists d1,
        RegisterCheck px hdr reg_cfg notify d0
        = Some (check_value reg_cfg
                  (fst (reg_read px hdr (reg reg_cfg) (world d0))), d1)).
Proof.
  intros [Hs _] E C E' value. split.
  - rewrite (RegisterCheck_fail px hdr reg_cfg notify d v w cur w' Hs E C E').
    eexists. split; [reflexivity|]. cbn. repeat split.
  - intros d0.
    destruct (RegisterCheck_verdict px hdr reg_cfg notify d0) as (d1 & R & _).
    now exists d1.
Qed.

Lemma RegisterCheck_corrects_once_and_fails_witness :
  cfg_in_range (mk_cfg 48 32 64)
  /\ check_value (mk_cfg 48 32 64) 0 = false
  /\ exists d',
       RegisterCheck Sim.platform Sim.registers (mk_cfg 48 32 64) true
         (Sim.in_state CONFIGURE (Sim.drifted 1 1000))
       = Some (false, d')
       /\ bus d' = [bus_xfer3 [48; 32]; bus_xfer3 [176; 0]; bus_xfer3 [176; 0]].
Proof.
  assert (Hr : cfg_in_range (mk_cfg 48 32 64)) by (unfold cfg_in_range; cbn; lia).
  split; [exact Hr|]. split; [reflexivity|].
  destruct (RegisterCheck_corrects_once_and_fails Sim.platform Sim.registers
              (mk_cfg 48 32 64) true
              (Sim.in_state CONFIGURE (Sim.drifted 1 1000))
              0 (Sim.drifted 1 1000) 0 (Sim.drifted 1 1000)
              Hr eq_refl eq_refl eq_refl) as [(d' & R & B & _) _].
  exists d'. split; [exact R|exact B].
Defined.

(** ** Sample decoding *)

Lemma combine_int16 (msb lsb : Z) :
  0 <= msb < 256 -> 0 <= lsb < 256 ->
  -32768 <= combine msb lsb < 32768
  /\ (combine msb lsb) mod 65536 = 256 * msb + lsb.
Proof.
  intros Hm Hl. unfold combine, int16.
  rewrite (lor_shiftl_bytes msb lsb Hm Hl).
  pose proof (Z.mod_pos_bound (256 * msb + lsb + 32768) 65536 ltac:(lia)) as B.
  split; [lia|].
  rewrite Zminus_mod_idemp_l.
  replace (256 * msb + lsb + 32768 - 32768) with (256 * msb + lsb) by lia.
  apply Z.mod_small. lia.
Qed.

(** C8 as the specification words it does not hold: the decoded value is
    not scaled before it is forwarded.  For the bytes DATAXH = 0x01,
    DATAXL = 0x02 the sink receives 258 itself, which is not 258 times the
    scale constant. *)
Lemma READ_sample_reaches_sink_unscaled :
  exists d',
    Run Sim.platform Sim.registers (Sim.in_state READ (Sim.healthy 1 1000))
    = Some (tt, d')
    /\ _px4_mag d' = [mag_update 1000 (combine 0x01 0x02) (-2) (-32768)]
    /\ ~ (inject_Z (combine 0x01 0x02)
          == inject_Z (combine 0x01 0x02) * scale_6_6_LSB_per_uT)%Q.
Proof.
  eexists. split; [vm_compute; reflexivity|]. split; [reflexivity|].
  vm_compute. discriminate.
Qed.

(** C8, amended.  For every pair of raw axis bytes the decoded value is the
    16-bit signed integer whose most-significant byte is the high data
    register and whose least-significant byte is the low one; DATAXH = 0x01
    with DATAXL = 0x02 decodes to 0x0102.  A sampling cycle that forwards a
    sample hands the three decoded values to the sink as they are, and the
    fixed scale constant reaches the sink separately, set by [Configure] on
    every pass: applying it is left to the sink. *)
Theorem combine_decodes_and_sample_goes_raw
  {W : Type} (px : Platform W) (hdr : Registers) :
  (forall msb lsb,
     0 <= msb < 256 -> 0 <= lsb < 256 ->
     -32768 <= combine msb lsb < 32768
     /\ (combine msb lsb) mod 65536 = 256 * msb + lsb)
  /\ combine 0x01 0x02 = 0x0102
  /\ (forall d ts rc buf w2,
        _state d = READ ->
        (_checked_register d < size_register_cfg hdr)%nat ->
        bulk_read px hdr (world d) = (ts, rc, buf, w2) ->
        truthy (uint8 (nth 0 buf 0)) && truthy (STAT_DRDY hdr) = true ->
        exists d',
          Run px hdr d = Some (tt, d')
          /\ _px4_mag d'
             = mag_update ts
                 (combine (uint8 (nth 2 buf 0)) (uint8 (nth 1 buf 0)))
                 (combine (uint8 (nth 4 buf 0)) (uint8 (nth 3 buf 0)))
                 (combine (uint8 (nth 6 buf 0)) (uint8 (nth 5 buf 0)))
               :: _px4_mag d)
  /\ (forall d,
        _state d = CONFIGURE ->
        exists d',
          Run px hdr d = Some (tt, d')
          /\ _px4_mag d'
             = mag_set_temperature_NAN :: mag_set_scale scale_6_6_LSB_per_uT
               :: _px4_mag d).
Proof.
  split; [exact combine_int16|]. split; [reflexivity|]. split.
  - intros d ts rc buf w2 St Hc B F.
    destruct (Run_READ_sink px hdr d ts rc buf w2 St Hc B)
      as (d' & R & M & _).
    exists d'. split; [exact R|]. rewrite M. unfold forwarded. rewrite F.
    reflexivity.
  - intros d St.
    destruct (check_all_total px hdr (_register_cfg hdr) d)
      as (oks & d1 & E & _ & _).
    destruct (Run_CONFIGURE px hdr d oks d1 St E) as (d' & R & _ & _ & M & _).
    now exists d'.
Qed.

Lemma combine_decodes_and_sample_goes_raw_witness :
  (-32768 <= combine 255 254 < 32768 /\ (combine 255 254) mod 65536 = 65534)
  /\ (exists d',
        Run Sim.platform Sim.registers (Sim.in_state READ (Sim.healthy 1 1000))
        = Some (tt, d')
        /\ _px4_mag d' = [mag_update 1000 258 (-2) (-32768)])
  /\ (exists d',
        Run Sim.platform Sim.registers
          (Sim.in_state CONFIGURE (Sim.healthy 1 1000))
        = Some (tt, d')
        /\ _px4_mag d'
           = [mag_set_temperature_NAN; mag_set_scale scale_6_6_LSB_per_uT]).
Proof.
  destruct (combine_decodes_and_sample_goes_raw Sim.platform Sim.registers)
    as (H1 & _ & H3 & H4).
  split; [|split].
  - apply (H1 255 254); lia.
  - apply (H3 (Sim.in_state READ (Sim.healthy 1 1000)) 1000 0
             [1; 2; 1; 254; 255; 0; 128] (Sim.healthy 1 1000)).
    + reflexivity.
    + vm_compute. lia.
    + reflexivity.
    + reflexivity.
  - apply (H4 (Sim.in_state CONFIGURE (Sim.healthy 1 1000))). reflexivity.
Defined.

(** ** Reset sequencing *)

(** C5.  In WAIT_FOR_RESET: when the identity register reads back the
    device signature and the software-reset bit reads back clear, the step
    function stores CONFIGURE and asks for an immediate invocation;
    otherwise, when more than 100 ms have elapsed since the reset was
    issued, it stores RESET and asks for an immediate invocation; otherwise
    it stays in WAIT_FOR_RESET and asks to be run again after 50 ms.  The
    invocation always has a result and leaves the driver in one of these
    three states: a reset that does not complete is retried, never given
    up. *)
Theorem WAIT_FOR_RESET_advances_retries_or_waits
  {W : Type} (px : Platform W) (hdr : Registers) (d : IST8308 W) :
  _state d = WAIT_FOR_RESET ->
  (forall w,
     reset_complete px hdr (world d) = (true, w) ->
     exists d',
       Run px hdr d = Some (tt, d')
       /\ _state d' = CONFIGURE
       /\ work_queue d' = ScheduleNow_ :: work_queue d)
  /\ (forall w e w',
        reset_complete px hdr (world d) = (false, w) ->
        hrt_elapsed_time px (_reset_timestamp d) w = (e, w') ->
        100000 < e ->
        exists d',
          Run px hdr d = Some (tt, d')
          /\ _state d' = RESET
          /\ work_queue d' = ScheduleNow_ :: work_queue d)
  /\ (forall w e w',
        reset_complete px hdr (world d) = (false, w) ->
        hrt_elapsed_time px (_reset_timestamp d) w = (e, w') ->
        e <= 100000 ->
        exists d',
          Run px hdr d = Some (tt, d')
          /\ _state d' = WAIT_FOR_RESET
          /\ work_queue d' = ScheduleDelayed_ 50000 :: work_queue d)
  /\ (exists d',
        Run px hdr d = Some (tt, d')
        /\ In (_state d') [CONFIGURE; RESET; WAIT_FOR_RESET]).
Proof.
  intros St. split; [|split; [|split]].
  - intros w RC.
    destruct (Run_WAIT_FOR_RESET_complete px hdr d w St RC)
      as (d' & R & S' & Q & _).
    now exists d'.
  - intros w e w' RC T He.
    destruct (Run_WAIT_FOR_RESET_pending px hdr d w e w' St RC T)
      as (d' & R & S' & Q & _).
    destruct (Z.ltb_spec 100000 e); [|lia]. now exists d'.
  - intros w e w' RC T He.
    destruct (Run_WAIT_FOR_RESET_pending px hdr d w e w' St RC T)
      as (d' & R & S' & Q & _).
    destruct (Z.ltb_spec 100000 e); [lia|]. now exists d'.
  - destruct (reset_complete px hdr (world d)) as [[|] w] eqn:RC.
    + destruct (Run_WAIT_FOR_RESET_complete px hdr d w St RC)
        as (d' & R & S' & _).
      exists d'. rewrite S'. cbn. auto.
    + destruct (hrt_elapsed_time px (_reset_timestamp d) w) as [e w'] eqn:T.
      destruct (Run_WAIT_FOR_RESET_pending px hdr d w e w' St RC T)
        as (d' & R & S' & _).
      exists d'. rewrite S'. destruct (100000 <? e); cbn; auto.
Qed.

Lemma WAIT_FOR_RESET_advances_retries_or_waits_witness :
  (exists d',
     Run Sim.platform Sim.registers
       (Sim.in_state WAIT_FOR_RESET (Sim.healthy 0 60000))
     = Some (tt, d')
     /\ _state d' = CONFIGURE /\ work_queue d' = [ScheduleNow_])
  /\ (exists d',
        Run Sim.platform Sim.registers
          (Sim.in_state WAIT_FOR_RESET (Sim.silent 150000))
        = Some (tt, d')
        /\ _state d' = RESET /\ work_queue d' = [ScheduleNow_])
  /\ (exists d',
        Run Sim.platform Sim.registers
          (Sim.in_state WAIT_FOR_RESET (Sim.silent 60000))
        = Some (tt, d')
        /\ _state d' = WAIT_FOR_RESET
        /\ work_queue d' = [ScheduleDelayed_ 50000]).
Proof.
  split; [|split].
  - apply (proj1
             (WAIT_FOR_RESET_advances_retries_or_waits Sim.platform
                Sim.registers
                (Sim.in_state WAIT_FOR_RESET (Sim.healthy 0 60000)) eq_refl)
             (Sim.healthy 0 60000)).
    reflexivity.
  - apply (proj1 (proj2
             (WAIT_FOR_RESET_advances_retries_or_waits Sim.platform
                Sim.registers
                (Sim.in_state WAIT_FOR_RESET (Sim.silent 150000)) eq_refl))
             (Sim.silent 150000) 150000 (Sim.silent 150000)).
    + reflexivity.
    + reflexivity.
    + lia.
  - apply (proj1 (proj2 (proj2
             (WAIT_FOR_RESET_advances_retries_or_waits Sim.platform
                Sim.registers
                (Sim.in_state WAIT_FOR_RESET (Sim.silent 60000)) eq_refl)))
             (Sim.silent 60000) 60000 (Sim.silent 60000)).
    + reflexivity.
    + reflexivity.
    + lia.
Defined.

(** ** Configuration *)

(** C2.  In CONFIGURE the step function verifies every entry of the table,
    one verdict per entry.  When every verdict of this pass is good it
    stores READ and schedules itself on a fixed interval of 20 ms; when some
    verdict is bad it stays in CONFIGURE and asks to be run again after a
    delay (50 ms), so that the next invocation verifies the table again. *)
Theorem CONFIGURE_advances_only_when_all_verified
  {W : Type} (px : Platform W) (hdr : Registers) (d : IST8308 W)
  (oks : list bool) (d1 : IST8308 W) :
  _state d = CONFIGURE ->
  check_all px hdr (_register_cfg hdr) d = Some (oks, d1) ->
  length oks = length (_register_cfg hdr)
  /\ exists d',
       Run px hdr d = Some (tt, d')
       /\ (Forall (fun ok => ok = true) oks ->
           _state d' = READ
           /\ work_queue d' = ScheduleOnInterval_ 20000 20000 :: work_queue d)
       /\ (Exists (fun ok => ok = false) oks ->
           _state d' = CONFIGURE
           /\ work_queue d' = ScheduleDelayed_ 50000 :: work_queue d).
Proof.
  intros St E.
  destruct (check_all_total px hdr (_register_cfg hdr) d)
    as (oks' & d1' & E' & L & _).
  rewrite E in E'. inversion E'; subst oks' d1'. split; [exact L|].
  destruct (Run_CONFIGURE px hdr d oks d1 St E) as (d' & R & S' & Q & _).
  exists d'. split; [exact R|]. split.
  - intros HF. rewrite Forall_forall in HF.
    assert (A : forallb (fun ok => ok) oks = true)
      by (apply forallb_forall; exact HF).
    rewrite A in S', Q. now split.
  - intros HE. rewrite Exists_exists in HE. destruct HE as (ok & I & ->).
    assert (A : forallb (fun ok => ok) oks = false).
    { destruct (forallb (fun ok => ok) oks) eqn:A; [|reflexivity].
      rewrite forallb_forall in A. symmetry. apply (A false I). }
    rewrite A in S', Q. now split.
Qed.

Lemma CONFIGURE_advances_only_when_all_verified_witness :
  (exists d',
     Run Sim.platform Sim.registers
       (Sim.in_state CONFIGURE (Sim.healthy 0 1000))
     = Some (tt, d')
     /\ _state d' = READ
     /\ work_queue d' = [ScheduleOnInterval_ 20000 20000])
  /\ (exists d',
        Run Sim.platform Sim.registers
          (Sim.in_state CONFIGURE (Sim.drifted 0 1000))
        = Some (tt, d')
        /\ _state d' = CONFIGURE
        /\ work_queue d' = [ScheduleDelayed_ 50000]).
Proof.
  split.
  - assert (E : exists d1,
               check_all Sim.platform Sim.registers
                 (_register_cfg Sim.registers)
                 (Sim.in_state CONFIGURE (Sim.healthy 0 1000))
               = Some ([true; true; true; true; true; true], d1))
      by (vm_compute; eexists; reflexivity).
    destruct E as [d1 E].
    destruct (CONFIGURE_advances_only_when_all_verified Sim.platform
                Sim.registers (Sim.in_state CONFIGURE (Sim.healthy 0 1000))
                [true; true; true; true; true; true] d1 eq_refl E)
      as (_ & d' & R & HF & _).
    exists d'. split; [exact R|]. apply HF. repeat constructor.
  - assert (E : exists d1,
               check_all Sim.platform Sim.registers
                 (_register_cfg Sim.registers)
                 (Sim.in_state CONFIGURE (Sim.drifted 0 1000))
               = Some ([true; false; true; true; true; true], d1))
      by (vm_compute; eexists; reflexivity).
    destruct E as [d1 E].
    destruct (CONFIGURE_advances_only_when_all_verified Sim.platform
                Sim.registers (Sim.in_state CONFIGURE (Sim.drifted 0 1000))
                [true; false; true; true; true; true] d1 eq_refl E)
      as (_ & d' & R & _ & HE).
    exists d'. split; [exact R|]. apply HE.
    apply Exists_cons_tl. apply Exists_cons_hd. reflexivity.
Defined.

(** ** Health check *)

(** C3.  In READ, when the incremental health check runs and the entry under
    the cursor fails its test, the same invocation stores CONFIGURE and asks
    for an immediate invocation; the driver does not stay in READ. *)
Theorem READ_failed_health_check_reconfigures
  {W : Type} (px : Platform W) (hdr : Registers) (d : IST8308 W)
  (ts rc : Z) (buf : list Z) (w2 w3 : W)
  (reg_cfg : register_config_t) (v : Z) (w4 : W) :
  _state d = READ ->
  bulk_read px hdr (world d) = (ts, rc, buf, w2) ->
  health_check_due px hdr d = (true, w3) ->
  nth_error (_register_cfg hdr) (_checked_register d) = Some reg_cfg ->
  reg_read px hdr (reg reg_cfg) w3 = (v, w4) ->
  check_value reg_cfg v = false ->
  exists d',
    Run px hdr d = Some (tt, d')
    /\ _state d' = CONFIGURE
    /\ work_queue d' = ScheduleNow_ :: work_queue d.
Proof.
  intros St B Hd N E C.
  destruct (Run_READ_fail px hdr d ts rc buf w2 w3 reg_cfg v w4 St B Hd N E C)
    as (d' & R & S' & Q & _).
  now exists d'.
Qed.

Lemma READ_failed_health_check_reconfigures_witness :
  check_value (mk_cfg 48 32 64) 0 = false
  /\ exists d',
       Run Sim.platform Sim.registers
         (set_checked_register 1 (Sim.in_state READ (Sim.drifted 1 200000)))
       = Some (tt, d')
       /\ _state d' = CONFIGURE
       /\ work_queue d' = [ScheduleNow_].
Proof.
  split; [reflexivity|].
  apply (READ_failed_health_check_reconfigures Sim.platform Sim.registers
           (set_checked_register 1 (Sim.in_state READ (Sim.drifted 1 200000)))
           200000 0 [1; 2; 1; 254; 255; 0; 128]
           (Sim.drifted 1 200000) (Sim.drifted 1 200000)
           (mk_cfg 48 32 64) 0 (Sim.drifted 1 200000));
    reflexivity.
Defined.




(** ** The cursor stays in the table *)



(** ** A failed transfer does not hold the sample back *)

(** C10.  In READ what goes to the sink is decided by the receive buffer
    alone ([forwarded] does not look at the status of the transfer).  A
    transfer that fails is counted and makes the health check run in the
    same invocation, nothing else: the entry under the cursor is read next
    on the bus, in the world the transfer left, and the invocation ends as
    after any health check (cursor moved on and time of the check recorded,
    or CONFIGURE and an immediate invocation).  And there are runs whose
    transfer fails and whose sample is forwarded all the same: on the
    simulated sensor a transfer that breaks off after three bytes leaves a
    buffer with the status byte and the first axis written and zeros after
    them, and the sink receives the sample (258, 0, 0). *)
Theorem READ_forwards_whatever_the_transfer_status :
  (forall (W : Type) (px : Platform W) (hdr : Registers) (d : IST8308 W)
          (ts rc : Z) (buf : list Z) (w2 : W) (reg_cfg : register_config_t),
     _state d = READ ->
     nth_error (_register_cfg hdr) (_checked_register d) = Some reg_cfg ->
     bulk_read px hdr (world d) = (ts, rc, buf, w2) ->
     exists d',
       Run px hdr d = Some (tt, d')
       /\ _px4_mag d' = forwarded hdr ts buf ++ _px4_mag d
       /\ (rc = (PX4_OK px) -> _bad_transfer_perf d' = _bad_transfer_perf d)
       /\ (rc <> (PX4_OK px) ->
           _bad_transfer_perf d' = S (_bad_transfer_perf d)
           /\ fst (health_check_due px hdr d) = true
           /\ exists calls,
                bus d' = calls ++ bus_xfer3 (read_cmd hdr (reg reg_cfg))
                           :: bus_xfer [uint8 (Register_STAT hdr)] 7 :: bus d
                /\ (if check_value reg_cfg
                         (fst (reg_read px hdr (reg reg_cfg) w2))
                    then calls = []
                         /\ _state d' = READ
                         /\ _checked_register d'
                            = Nat.modulo (_checked_register d + 1)
                                (size_register_cfg hdr)
                         /\ _last_config_check_timestamp d' = ts
                    else length calls = 2%nat
                         /\ _state d' = CONFIGURE
                         /\ work_queue d' = ScheduleNow_ :: work_queue d
                         /\ _checked_register d' = _checked_register d)))
  /\ (exists d',
        bulk_read Sim.platform Sim.registers
          (Sim.faulty [Sim.Abort 3] 1 1000)
        = (1000, -1, [1; 2; 1; 0; 0; 0; 0], Sim.faulty [] 1 1000)
        /\ Run Sim.platform Sim.registers
             (Sim.in_state READ (Sim.faulty [Sim.Abort 3] 1 1000))
           = Some (tt, d')
        /\ _px4_mag d' = [mag_update 1000 258 0 0]
        /\ _bad_transfer_perf d' = 1%nat
        /\ bus d' = [bus_xfer3 [160; 0]; bus_xfer [16] 7]
        /\ _checked_register d' = 1%nat).
Proof.
  split.
  - intros W px hdr d ts rc buf w2 reg_cfg St N B.
    assert (Hc : (_checked_register d < size_register_cfg hdr)%nat)
      by (apply nth_error_Some; rewrite N; discriminate).
    destruct (Run_READ_sink px hdr d ts rc buf w2 St Hc B)
      as (d' & R & M & P & _).
    exists d'. split; [exact R|]. split; [exact M|]. split.
    + intros Hrc. rewrite P, Hrc, Z.eqb_refl. reflexivity.
    + intros Hrc.
      destruct (Run_READ_failed_transfer px hdr d ts rc buf w2 reg_cfg
                  St N B Hrc) as (d'' & calls & R' & _ & P' & Bc & K).
      rewrite R in R'. inversion R'; subst d''.
      split; [exact P'|]. split.
      * now rewrite (health_check_due_on_failure px hdr d ts rc buf w2 B Hrc).
      * exists calls. split; [exact Bc|exact K].
  - eexists. split; [reflexivity|].
    split; [vm_compute; reflexivity|]. repeat split.
Qed.

Lemma READ_forwards_whatever_the_transfer_status_witness :
  exists d',
    Run Sim.platform Sim.registers
      (Sim.in_state READ (Sim.faulty [Sim.Abort 3] 1 1000))
    = Some (tt, d')
    /\ _px4_mag d' = [mag_update 1000 258 0 0]
    /\ _bad_transfer_perf d' = 1%nat
    /\ exists calls,
         bus d' = calls ++ [bus_xfer3 [160; 0]; bus_xfer [16] 7].
Proof.
  destruct (proj1 READ_forwards_whatever_the_transfer_status
              Sim.world Sim.platform Sim.registers
              (Sim.in_state READ (Sim.faulty [Sim.Abort 3] 1 1000))
              1000 (-1) [1; 2; 1; 0; 0; 0; 0] (Sim.faulty [] 1 1000)
              (mk_cfg 32 0 2)
              eq_refl eq_refl eq_refl)
    as (d' & R & M & _ & P).
  assert (Hrc : -1 <> PX4_OK Sim.platform) by discriminate.
  destruct (P Hrc) as (P1 & _ & calls & Bc & _).
  exists d'. split; [exact R|]. split; [exact M|]. split; [exact P1|].
  exists calls. exact Bc.
Defined.

(** ** Stop *)

(** C6 as the specification words it does not hold: a work queue that
    delivers every invocation [Stop] asks for is not enough.  Take a
    driver that was constructed and never started, and a work queue that
    gets to run between the test of the loop and the store, in every
    round.  In the first round nothing is pending.  From then on every
    [ScheduleNow] of [Stop] is answered, in the next round, by an
    invocation that finds REQUEST_STOP, clears the schedule and stores
    STOPPED (the log of the schedule shows the pairs), and every time the
    store of that round puts REQUEST_STOP back before the loop tests the
    state again: no number of rounds is enough, however long the work
    queue goes on. *)
Lemma Stop_overwrites_STOPPED_when_invocations_race :
  reachable Sim.platform Sim.registers (constructed (Sim.healthy 1 0))
  /\ (exists d3,
        (Stop_round Sim.platform Sim.registers Sim.racy ;;
         Stop_round Sim.platform Sim.registers Sim.racy ;;
         Stop_round Sim.platform Sim.registers Sim.racy)%drv
          (constructed (Sim.healthy 1 0)) = Some (tt, d3)
        /\ _state d3 = REQUEST_STOP
        /\ work_queue d3
           = [ScheduleNow_; ScheduleClear_; ScheduleNow_; ScheduleClear_;
              ScheduleNow_])
  /\ (forall fuel n,
        Stop Sim.platform Sim.registers fuel (repeat Sim.racy n)
          (constructed (Sim.healthy 1 0)) = None).
Proof.
  split; [constructor|]. split.
  - vm_compute. eexists. repeat split.
  - intros fuel n. apply Stop_racing.
    + vm_compute. lia.
    + discriminate.
    + apply Forall_forall. intros p Hin. apply repeat_spec in Hin.
      subst p. repeat split.
Qed.

(** C6, amended.  [Stop] returns once the invocation it asks for is
    delivered in time.  Take any driver object whose cursor is in the table
    (every reachable one is), and a work queue that gets to run at any
    times in the rounds of the loop, as long as some round [k] is one where
    no invocation is in flight at the store of REQUEST_STOP and the work
    queue gets to run between the [ScheduleNow] of that round and the next
    test of the loop.  Then the loop ends within [k + 2] tests, with the
    state STOPPED.  The invocation that finds REQUEST_STOP clears the
    schedule and stores STOPPED, and no other branch of the step function
    stores STOPPED, whenever it loaded the state. *)
Theorem Stop_terminates
  {W : Type} (px : Platform W) (hdr : Registers)
  (k fuel : nat) (wq : list preemption) (d : IST8308 W) (p : preemption) :
  (_checked_register d < size_register_cfg hdr)%nat ->
  nth_error wq k = Some p ->
  delivers p ->
  (k + 2 <= fuel)%nat ->
  (exists d', Stop px hdr fuel wq d = Some (tt, d') /\ _state d' = STOPPED)
  /\ (forall d0,
        _state d0 = REQUEST_STOP ->
        Run px hdr d0
        = Some (tt, set_state STOPPED
                      (set_work_queue (ScheduleClear_ :: work_queue d0) d0)))
  /\ (forall st d0 d1,
        (_checked_register d0 < size_register_cfg hdr)%nat ->
        Run_from px hdr st d0 = Some (tt, d1) ->
        _state d1 = STOPPED ->
        st = REQUEST_STOP \/ _state d0 = STOPPED).
Proof.
  intros Hc Hp Hdel Hfuel. split; [|split].
  - destruct (Stop_returns px hdr k fuel wq d p Hc Hp Hdel Hfuel)
      as (d' & R & S' & _).
    now exists d'.
  - intros d0 St. apply Run_REQUEST_STOP. exact St.
  - intros st d0 d1 Hc0 R S1.
    destruct (Run_from_stores px hdr st d0 Hc0) as (d1' & R' & I).
    rewrite R in R'. inversion R'; subst d1'. rewrite S1 in I.
    destruct I as [I|I]; [now right|].
    destruct st; cbn in I; intuition congruence.
Qed.

Lemma Stop_terminates_witness :
  delivers {| after_load := []; in_flight := None; after_store := [];
              during_usleep := [Sim.healthy 1 1020] |}
  /\ exists d',
       Stop Sim.platform Sim.registers 4 [Sim.racy; Sim.racy;
           {| after_load := []; in_flight := None; after_store := [];
              during_usleep := [Sim.healthy 1 1020] |}]
         (constructed (Sim.healthy 1 1000))
       = Some (tt, d')
       /\ _state d' = STOPPED.
Proof.
  assert (Hd : delivers {| after_load := []; in_flight := None;
                           after_store := [];
                           during_usleep := [Sim.healthy 1 1020] |})
    by (unfold delivers; cbn; split; [reflexivity|discriminate]).
  split; [exact Hd|].
  exact (proj1 (Stop_terminates Sim.platform Sim.registers 2 4
                  [Sim.racy; Sim.racy;
                   {| after_load := []; in_flight := None; after_store := [];
                      during_usleep := [Sim.healthy 1 1020] |}]
                  (constructed (Sim.healthy 1 1000))
                  _ ltac:(vm_compute; lia) eq_refl Hd ltac:(lia))).
Defined.

(** * Further properties of the driver *)

(** ** Bytes *)

Lemma combine_cases (msb lsb : Z) :
  0 <= msb < 256 -> 0 <= lsb < 256 ->
  combine msb lsb
  = if msb <? 128 then 256 * msb + lsb else 256 * msb + lsb - 65536.
Proof.
  intros Hm Hl. unfold combine, int16.
  rewrite (lor_shiftl_bytes msb lsb Hm Hl).
  destruct (Z.ltb_spec msb 128).
  - rewrite Z.mod_small by lia. lia.
  - replace (256 * msb + lsb + 32768)
      with (256 * msb + lsb - 32768 + 1 * 65536) by lia.
    rewrite Z_mod_plus_full, Z.mod_small by lia. lia.
Qed.

(** X2.  [combine] loses nothing: the two bytes can be read back from the
    decoded value (the low byte of the value and the low byte of the value
    shifted right by 8), so two different pairs of bytes never decode to the
    same value; and the decoded value is negative exactly when the top bit
    of the high byte is set. *)
Theorem combine_round_trip (msb lsb : Z) :
  0 <= msb < 256 -> 0 <= lsb < 256 ->
  uint8 (combine msb lsb) = lsb
  /\ uint8 (Z.shiftr (combine msb lsb) 8) = msb
  /\ (combine msb lsb < 0 <-> 128 <= msb)
  /\ (forall msb' lsb',
        0 <= msb' < 256 -> 0 <= lsb' < 256 ->
        combine msb lsb = combine msb' lsb' -> msb = msb' /\ lsb = lsb').
Proof.
  intros Hm Hl.
  assert (Lo : forall m l, 0 <= m < 256 -> 0 <= l < 256 ->
                 uint8 (combine m l) = l).
  { intros m l Hm' Hl'. rewrite (combine_cases m l Hm' Hl'). unfold uint8.
    destruct (m <? 128).
    - replace (256 * m + l) with (l + m * 256) by lia.
      rewrite Z_mod_plus_full. apply Z.mod_small. lia.
    - replace (256 * m + l - 65536) with (l + (m - 256) * 256) by lia.
      rewrite Z_mod_plus_full. apply Z.mod_small. lia. }
  assert (Hi : forall m l, 0 <= m < 256 -> 0 <= l < 256 ->
                 uint8 (Z.shiftr (combine m l) 8) = m).
  { intros m l Hm' Hl'. rewrite (combine_cases m l Hm' Hl').
    rewrite Z.shiftr_div_pow2 by lia. change (2 ^ 8) with 256. unfold uint8.
    destruct (m <? 128).
    - replace (256 * m + l) with (l + m * 256) by lia.
      rewrite Z_div_plus_full, Z.div_small by lia.
      apply Z.mod_small. lia.
    - replace (256 * m + l - 65536) with (l + (m - 256) * 256) by lia.
      rewrite Z_div_plus_full, Z.div_small by lia.
      replace (0 + (m - 256)) with (m + (-1) * 256) by lia.
      rewrite Z_mod_plus_full. apply Z.mod_small. lia. }
  split; [apply Lo; assumption|]. split; [apply Hi; assumption|]. split.
  - rewrite (combine_cases msb lsb Hm Hl).
    destruct (Z.ltb_spec msb 128); lia.
  - intros msb' lsb' Hm' Hl' E. split.
    + rewrite <- (Hi msb lsb Hm Hl), E. apply Hi; assumption.
    + rewrite <- (Lo msb lsb Hm Hl), E. apply Lo; assumption.
Qed.

Lemma combine_round_trip_witness :
  uint8 (combine 255 254) = 254
  /\ uint8 (Z.shiftr (combine 255 254) 8) = 255
  /\ (combine 255 254 < 0 <-> 128 <= 255).
Proof.
  destruct (combine_round_trip 255 254 ltac:(lia) ltac:(lia))
    as (H1 & H2 & H3 & _).
  split; [exact H1|]. split; [exact H2|exact H3].
Defined.

(** Bits of the value the read-modify-write stores. *)
Lemma set_and_clear_bits (cur setbits clearbits : Z) :
  Z.land setbits clearbits = 0 ->
  let value := Z.land (Z.lor cur setbits) (Z.lnot clearbits) in
  Z.land value setbits = setbits
  /\ Z.land value clearbits = 0
  /\ Z.land value (Z.lnot (Z.lor setbits clearbits))
     = Z.land cur (Z.lnot (Z.lor setbits clearbits)).
Proof.
  intros D value. unfold value.
  assert (B : forall n, 0 <= n ->
                Z.testbit setbits n && Z.testbit clearbits n = false).
  { intros n Hn. rewrite <- Z.land_spec, D. apply Z.bits_0. }
  split; [|split]; apply Z.bits_inj'; intros n Hn; specialize (B n Hn);
    repeat rewrite ?Z.land_spec, ?Z.lor_spec, ?Z.lnot_spec, ?Z.bits_0 by lia;
    destruct (Z.testbit cur n), (Z.testbit setbits n),
             (Z.testbit clearbits n); simpl in *; congruence.
Qed.

(** The value the read-modify-write stores passes the test of the check. *)
Lemma corrected_value_checks (reg_cfg : register_config_t) (cur : Z) :
  Z.land (set_bits reg_cfg) (clear_bits reg_cfg) = 0 ->
  check_value reg_cfg
    (Z.land (Z.lor cur (set_bits reg_cfg)) (Z.lnot (clear_bits reg_cfg)))
  = true.
Proof.
  intros D.
  destruct (set_and_clear_bits cur (set_bits reg_cfg) (clear_bits reg_cfg) D)
    as (B1 & B2 & _). cbv zeta in B1, B2.
  unfold check_value. rewrite B1, B2. unfold truthy. rewrite Z.eqb_refl. cbn.
  destruct (set_bits reg_cfg =? 0), (clear_bits reg_cfg =? 0); reflexivity.
Qed.

Lemma failures_none (oks : list bool) :
  failures oks = 0%nat <-> forallb (fun ok => ok) oks = true.
Proof.
  unfold failures. induction oks as [|[|] oks IH]; cbn.
  - tauto.
  - exact IH.
  - split; discriminate.
Qed.

(** ** The read-modify-write and the check, together *)

Section Correction.
Context {W : Type}.
Variable px : Platform W.
Variable hdr : Registers.
Implicit Type d : IST8308 W.

(** X1.  With masks that fit a byte and do not overlap,
    [RegisterSetAndClearBits] issues one read and one write, and the byte
    it writes is a byte that has every bit of [setbits] set and every bit
    of [clearbits] clear, keeps the other bits of the value just read, and
    passes the test of [RegisterCheck] for these masks. *)
Theorem RegisterSetAndClearBits_conforms reg_ setbits clearbits d cur w :
  0 <= setbits < 256 ->
  Z.land setbits clearbits = 0 ->
  reg_read px hdr reg_ (world d) = (cur, w) ->
  exists value d',
    RegisterSetAndClearBits px hdr reg_ setbits clearbits d = Some (tt, d')
    /\ bus d' = bus_xfer3 [uint8 reg_; value]
                :: bus_xfer3 (read_cmd hdr reg_) :: bus d
    /\ 0 <= value < 256
    /\ Z.land value setbits = setbits
    /\ Z.land value clearbits = 0
    /\ Z.land value (Z.lnot (Z.lor setbits clearbits))
       = Z.land cur (Z.lnot (Z.lor setbits clearbits))
    /\ check_value (mk_cfg reg_ setbits clearbits) value = true.
Proof.
  intros Hs D E.
  pose proof (RegisterSetAndClearBits_run px hdr reg_ setbits clearbits
                d cur w Hs E) as R. cbv zeta in R.
  destruct (set_and_clear_bits cur setbits clearbits D) as (B1 & B2 & B3).
  cbv zeta in B1, B2, B3.
  pose proof (reg_read_range px hdr reg_ (world d)) as Hc. rewrite E in Hc.
  cbn [fst] in Hc.
  eexists _, _. split; [exact R|]. split; [reflexivity|]. split.
  - rewrite <- (uint8_land_lnot (Z.lor cur setbits) clearbits)
      by (apply lor_byte_range; assumption).
    apply uint8_range.
  - split; [exact B1|]. split; [exact B2|]. split; [exact B3|].
    unfold check_value. cbn [set_bits clear_bits]. rewrite B1, B2.
    unfold truthy. rewrite Z.eqb_refl. cbn.
    destruct (setbits =? 0), (clearbits =? 0); reflexivity.
Qed.

(** What one check does to the driver object: the verdict is the test of
    the byte read, the bus sees one transfer when it passes and three when
    it fails, and a failure is counted when [notify] is set. *)
Lemma RegisterCheck_effect reg_cfg notify d :
  exists ok d' calls,
    RegisterCheck px hdr reg_cfg notify d = Some (ok, d')
    /\ ok = check_value reg_cfg
              (fst (reg_read px hdr (reg reg_cfg) (world d)))
    /\ same_members d d'
    /\ bus d' = calls ++ bus d
    /\ length calls = (if ok then 1 else 3)%nat
    /\ _bad_register_perf d'
       = (if ok then _bad_register_perf d
          else if notify then S (_bad_register_perf d)
               else _bad_register_perf d).
Proof.
  unfold RegisterCheck, bind.
  destruct (reg_read px hdr (reg reg_cfg) (world d)) as [v w] eqn:E.
  rewrite (RegisterRead_run _ _ _ _ _ _ E). cbn [fst].
  destruct (check_value reg_cfg v); cbn [negb].
  - eexists true, _, [_]. split; [reflexivity|]. split; [reflexivity|].
    unfold same_members. cbn. repeat split.
  - unfold RegisterSetAndClearBits, bind.
    destruct (reg_read px hdr (reg reg_cfg) w) as [cur w'] eqn:E'.
    rewrite (RegisterRead_run px hdr _ _ cur w') by exact E'.
    rewrite RegisterWrite_run.
    destruct notify; eexists false, _, [_; _; _];
      (split; [reflexivity|]); (split; [reflexivity|]);
      unfold same_members; cbn; repeat split.
Qed.
End Correction.

Lemma RegisterSetAndClearBits_conforms_witness :
  exists value d',
    RegisterSetAndClearBits Sim.platform Sim.registers 48 32 64
      (Sim.in_state CONFIGURE (Sim.drifted 1 1000)) = Some (tt, d')
    /\ bus d' = [bus_xfer3 [48; value]; bus_xfer3 [176; 0]]
    /\ Z.land value 32 = 32
    /\ Z.land value 64 = 0.
Proof.
  destruct (RegisterSetAndClearBits_conforms Sim.platform Sim.registers
              48 32 64
              (Sim.in_state CONFIGURE (Sim.drifted 1 1000))
              0 (Sim.drifted 1 1000) ltac:(lia) eq_refl eq_refl)
    as (value & d' & R & B & _ & B1 & B2 & _).
  exists value, d'. repeat split; assumption.
Defined.

(** ** Checks in a row *)

Section Passes.
Context {W : Type}.
Variable px : Platform W.
Variable hdr : Registers.
Implicit Type d : IST8308 W.

(** X3.  A check that failed has written its correction; when the device
    then reads back the byte that was written, the next check of the same
    entry passes, with one read and nothing written.  (The masks fit a byte
    and do not overlap.) *)
Theorem RegisterCheck_passes_after_correction
  reg_cfg notify d v w cur w' v2 w2 :
  cfg_in_range reg_cfg ->
  Z.land (set_bits reg_cfg) (clear_bits reg_cfg) = 0 ->
  reg_read px hdr (reg reg_cfg) (world d) = (v, w) ->
  check_value reg_cfg v = false ->
  reg_read px hdr (reg reg_cfg) w = (cur, w') ->
  let value :=
    Z.land (Z.lor cur (set_bits reg_cfg)) (Z.lnot (clear_bits reg_cfg)) in
  reg_read px hdr (reg reg_cfg) (reg_write px (reg reg_cfg) value w')
  = (v2, w2) ->
  v2 = value ->
  exists d1 d2,
    RegisterCheck px hdr reg_cfg notify d = Some (false, d1)
    /\ RegisterCheck px hdr reg_cfg notify d1 = Some (true, d2)
    /\ bus d2 = bus_xfer3 (read_cmd hdr (reg reg_cfg)) :: bus d1.
Proof.
  intros [Hs _] D E C E' value E2 Hv.
  pose proof (RegisterCheck_fail px hdr reg_cfg notify d v w cur w' Hs E C E')
    as R1. cbv zeta in R1. fold value in R1.
  eexists _, _. split; [exact R1|].
  assert (C2 : check_value reg_cfg v2 = true)
    by (rewrite Hv; apply corrected_value_checks; exact D).
  erewrite RegisterCheck_pass; [split; reflexivity| |exact C2].
  exact E2.
Qed.

(** The bus traffic and the count of bad registers of one pass over a list
    of entries. *)
Lemma check_all_effect regs d oks d' :
  check_all px hdr regs d = Some (oks, d') ->
  exists calls,
    bus d' = calls ++ bus d
    /\ length calls = (length regs + 2 * failures oks)%nat
    /\ _bad_register_perf d'
       = (_bad_register_perf d
          + (if notify_default hdr then failures oks else 0))%nat.
Proof.
  revert d oks d'. induction regs as [|reg_cfg rest IH]; intros d oks d' E.
  - cbn in E. inversion E; subst. exists []. cbn.
    repeat split; destruct (notify_default hdr); lia.
  - cbn [check_all] in E. unfold bind in E.
    destruct (RegisterCheck_effect px hdr reg_cfg (notify_default hdr) d)
      as (ok & d1 & calls1 & R & _ & _ & B1 & L1 & P1).
    rewrite R in E.
    destruct (check_all px hdr rest d1) as [[oks' d2]|] eqn:E2; [|discriminate].
    inversion E; subst oks d'. clear E.
    destruct (IH d1 oks' d2 E2) as (calls2 & B2 & L2 & P2).
    exists (calls2 ++ calls1). split; [|split].
    + rewrite B2, B1. now rewrite app_assoc.
    + rewrite length_app, L1, L2. unfold failures. cbn.
      destruct ok; cbn; lia.
    + rewrite P2, P1. unfold failures. cbn.
      destruct ok, (notify_default hdr); cbn; lia.
Qed.

End Passes.

Lemma RegisterCheck_passes_after_correction_witness :
  exists d1 d2,
    RegisterCheck Sim.platform Sim.registers (mk_cfg 48 32 64) false
      (Sim.in_state CONFIGURE (Sim.drifted 1 1000)) = Some (false, d1)
    /\ RegisterCheck Sim.platform Sim.registers (mk_cfg 48 32 64) false d1
       = Some (true, d2).
Proof.
  assert (Hr : cfg_in_range (mk_cfg 48 32 64)) by (unfold cfg_in_range; cbn; lia).
  destruct (RegisterCheck_passes_after_correction Sim.platform Sim.registers
              (mk_cfg 48 32 64) false
              (Sim.in_state CONFIGURE (Sim.drifted 1 1000))
              0 (Sim.drifted 1 1000) 0 (Sim.drifted 1 1000)
              32 (Sim.write_reg (Sim.drifted 1 1000) 48 32)
              Hr eq_refl eq_refl eq_refl eq_refl eq_refl eq_refl)
    as (d1 & d2 & R1 & R2 & _).
  now exists d1, d2.
Defined.


(** ** What an invocation puts on the bus, in the counters and in the sink *)

Section Traffic.
Context {W : Type}.
Variable px : Platform W.
Variable hdr : Registers.
Implicit Type d : IST8308 W.

(** A cycle without health check, with its counters. *)
Lemma Run_from_READ_idle_counters d ts rc buf w2 w3 :
  bulk_read px hdr (world d) = (ts, rc, buf, w2) ->
  health_check_due px hdr d = (false, w3) ->
  exists d',
    Run_from px hdr READ d = Some (tt, d')
    /\ _transfer_perf d' = S (_transfer_perf d)
    /\ _bad_register_perf d' = _bad_register_perf d
    /\ _reset_timestamp d' = _reset_timestamp d.
Proof.
  intros B Hd.
  unfold health_check_due in Hd; rewrite B in Hd.
  unfold bulk_read in B.
  destruct (hrt_absolute_time px (world d)) as [ts' w1] eqn:T.
  destruct (transfer px [uint8 (Register_STAT hdr)] (repeat 0 7) w1)
    as [[rc' buf'] w2'] eqn:X.
  inversion B; subst; clear B.
  unfold Run_from, bind, perf_begin_transfer, ret at 1, now, i2c_transfer.
  rewrite T. cbn [world set_world]. rewrite X. cbn [fst snd].
  destruct (Z.eqb_spec rc (PX4_OK px)) as [Hrc|Hrc]; cbn [negb] in *;
    [|discriminate Hd].
  unfold ret at 1, perf_end_transfer, modify.
  destruct (truthy (uint8 (nth 0 buf 0)) && truthy (STAT_DRDY hdr));
    unfold px4_mag, modify, ret at 1, gets, elapsed;
    cbn [world set_world set_bus set_transfer_perf set_px4_mag
         _last_config_check_timestamp];
    destruct (hrt_elapsed_time px (_last_config_check_timestamp d) w2)
      as [e w3'];
    inversion Hd as [[Hd1 Hd2]]; unfold ret at 1;
    change (ms 100) with 100000; rewrite Hd1;
    eexists; (split; [reflexivity|]); cbn; repeat split.
Qed.

(** X5.  A sampling cycle always issues the bulk read first and counts one
    more transfer.  When the health check is not due it does nothing else:
    the driver stays in READ and the timestamp of the last check is kept.
    When it is due, either the entry passes (one more read, the driver
    stays in READ, the timestamp of the last check becomes the capture
    timestamp of this cycle) or it fails (three more transfers, the driver
    goes to CONFIGURE, one more bad register is counted, and the timestamp
    of the last check is kept, so that the check is due again). *)
Theorem READ_bus_traffic_and_counters d ts rc buf w2 :
  _state d = READ ->
  (_checked_register d < size_register_cfg hdr)%nat ->
  bulk_read px hdr (world d) = (ts, rc, buf, w2) ->
  exists d' calls,
    Run px hdr d = Some (tt, d')
    /\ bus d' = calls ++ bus_xfer [uint8 (Register_STAT hdr)] 7 :: bus d
    /\ _transfer_perf d' = S (_transfer_perf d)
    /\ (fst (health_check_due px hdr d) = false ->
        calls = [] /\ _state d' = READ
        /\ _bad_register_perf d' = _bad_register_perf d
        /\ _last_config_check_timestamp d' = _last_config_check_timestamp d)
    /\ (fst (health_check_due px hdr d) = true ->
        (length calls = 1%nat /\ _state d' = READ
         /\ _bad_register_perf d' = _bad_register_perf d
         /\ _last_config_check_timestamp d' = ts)
        \/ (length calls = 3%nat /\ _state d' = CONFIGURE
            /\ _bad_register_perf d' = S (_bad_register_perf d)
            /\ _last_config_check_timestamp d'
               = _last_config_check_timestamp d)).
Proof.
  intros St Hc B. rewrite Run_unfold, St.
  destruct (health_check_due px hdr d) as [[|] w3] eqn:Hd; cbn [fst].
  - destruct (nth_error (_register_cfg hdr) (_checked_register d))
      as [reg_cfg|] eqn:N.
    2:{ apply nth_error_None in N. unfold size_register_cfg in Hc. lia. }
    destruct (RegisterCheck_effect px hdr reg_cfg true
                (after_sampling px hdr d ts rc buf w3))
      as (ok & d1 & calls & R & _ & F & Bc & L & P).
    rewrite (Run_from_READ_due px hdr d ts rc buf w2 w3 reg_cfg ok d1
               B Hd N R).
    destruct F as (F1 & F2 & F3 & F4 & F5 & F6 & F7 & F8).
    assert (S0 : _state d1 = READ) by (rewrite F1; cbn; exact St).
    assert (T0 : _last_config_check_timestamp d1
                 = _last_config_check_timestamp d) by (rewrite F4; reflexivity).
    assert (P0 : _transfer_perf d1 = S (_transfer_perf d))
      by (rewrite F7; reflexivity).
    assert (B0 : bus d1
                 = calls ++ bus_xfer [uint8 (Register_STAT hdr)] 7 :: bus d)
      by (rewrite Bc; reflexivity).
    assert (R0 : _bad_register_perf (after_sampling px hdr d ts rc buf w3)
                 = _bad_register_perf d) by reflexivity.
    destruct ok; eexists _, calls; (split; [reflexivity|]);
      cbn [bus _transfer_perf _state _bad_register_perf
           _last_config_check_timestamp set_checked_register
           set_last_config_check_timestamp set_work_queue set_state];
      (split; [exact B0|]); (split; [exact P0|]);
      (split; [discriminate|]); intros _.
    + left. repeat split; congruence.
    + right. repeat split; congruence.
  - destruct (Run_from_READ_idle px hdr d ts rc buf w2 w3 B Hd)
      as (d' & R & S' & _ & Lc & _ & Bc & _).
    destruct (Run_from_READ_idle_counters d ts rc buf w2 w3 B Hd)
      as (d'' & R' & T' & P' & _).
    rewrite R in R'. inversion R'; subst d''.
    exists d', []. split; [exact R|]. split; [exact Bc|]. split; [exact T'|].
    split; [|discriminate]. intros _. repeat split; try assumption.
    congruence.
Qed.

(** The RESET branch, with everything it leaves alone. *)
Lemma Run_from_RESET_frame d :
  exists d' calls,
    Run_from px hdr RESET d = Some (tt, d')
    /\ _state d' = WAIT_FOR_RESET
    /\ work_queue d' = ScheduleDelayed_ 50000 :: work_queue d
    /\ _px4_mag d' = _px4_mag d
    /\ _checked_register d' = _checked_register d
    /\ _last_config_check_timestamp d' = _last_config_check_timestamp d
    /\ bus d' = calls ++ bus d
    /\ length calls = 2%nat.
Proof.
  unfold Run_from, RegisterSetBits, RegisterSetAndClearBits, bind.
  destruct (reg_read px hdr (Register_CNTL3 hdr) (world d)) as [cur w] eqn:E.
  rewrite (RegisterRead_run _ _ _ _ _ _ E). cbv zeta.
  rewrite RegisterWrite_run. unfold now.
  match goal with
  | |- context [hrt_absolute_time px ?x] =>
      destruct (hrt_absolute_time px x) as [t w']
  end.
  eexists _, [_; _]. split; [reflexivity|]. cbn. repeat split.
Qed.

(** The WAIT_FOR_RESET branch, with everything it leaves alone. *)
Lemma Run_from_WAIT_FOR_RESET_frame d wai w1 :
  reg_read px hdr (Register_WAI hdr) (world d) = (wai, w1) ->
  exists d',
    Run_from px hdr WAIT_FOR_RESET d = Some (tt, d')
    /\ bus d'
       = (if wai =? Device_ID hdr
          then [bus_xfer3 (read_cmd hdr (Register_CNTL3 hdr));
                bus_xfer3 (read_cmd hdr (Register_WAI hdr))]
          else [bus_xfer3 (read_cmd hdr (Register_WAI hdr))]) ++ bus d
    /\ _px4_mag d' = _px4_mag d
    /\ _checked_register d' = _checked_register d
    /\ _reset_timestamp d' = _reset_timestamp d
    /\ _last_config_check_timestamp d' = _last_config_check_timestamp d.
Proof.
  intros E1. unfold Run_from, bind.
  rewrite (RegisterRead_run _ _ _ _ _ _ E1).
  destruct (wai =? Device_ID hdr).
  - destruct (reg_read px hdr (Register_CNTL3 hdr) w1) as [c3 w2] eqn:E2.
    unfold bind. rewrite (RegisterRead_run px hdr _ _ c3 w2) by exact E2.
    unfold ret at 1.
    destruct (Z.land c3 (CNTL3_SRST hdr) =? 0).
    + eexists. split; [reflexivity|]. cbn. repeat split.
    + unfold gets, elapsed.
      cbn [world on_bus set_bus set_world _reset_timestamp].
      destruct (hrt_elapsed_time px (_reset_timestamp d) w2) as [e w'].
      destruct (ms 100 <? e); eexists; (split; [reflexivity|]); cbn;
        repeat split.
  - unfold ret at 1. unfold gets, elapsed.
    cbn [world on_bus set_bus set_world _reset_timestamp].
    destruct (hrt_elapsed_time px (_reset_timestamp d) w1) as [e w'].
    destruct (ms 100 <? e); eexists; (split; [reflexivity|]); cbn;
      repeat split.
Qed.

(** X6.  An invocation in WAIT_FOR_RESET only reads: it reads the identity
    register, and the control register only when the identity matches; it
    writes nothing, forwards nothing to the sink and keeps the timestamp of
    the reset, so that the time-out is counted from the reset, not from the
    last look. *)
Theorem WAIT_FOR_RESET_reads_only d wai w1 :
  _state d = WAIT_FOR_RESET ->
  reg_read px hdr (Register_WAI hdr) (world d) = (wai, w1) ->
  exists d',
    Run px hdr d = Some (tt, d')
    /\ (wai = Device_ID hdr ->
        bus d' = bus_xfer3 (read_cmd hdr (Register_CNTL3 hdr))
                 :: bus_xfer3 (read_cmd hdr (Register_WAI hdr)) :: bus d)
    /\ (wai <> Device_ID hdr ->
        bus d' = bus_xfer3 (read_cmd hdr (Register_WAI hdr)) :: bus d
        /\ _state d' <> CONFIGURE)
    /\ _px4_mag d' = _px4_mag d
    /\ _reset_timestamp d' = _reset_timestamp d.
Proof.
  intros St E1. rewrite Run_unfold, St.
  destruct (Run_from_WAIT_FOR_RESET_frame d wai w1 E1)
    as (d' & R & Bc & M & _ & T & _).
  exists d'. split; [exact R|].
  destruct (Z.eqb_spec wai (Device_ID hdr)) as [Hw|Hw].
  - split; [intros _; exact Bc|]. split; [contradiction|]. now split.
  - split; [contradiction|]. split; [|now split]. intros _.
    split; [exact Bc|].
    assert (RC : reset_complete px hdr (world d) = (false, w1)).
    { unfold reset_complete. rewrite E1.
      destruct (Z.eqb_spec wai (Device_ID hdr)); [contradiction|reflexivity]. }
    destruct (hrt_elapsed_time px (_reset_timestamp d) w1) as [e w'] eqn:Te.
    destruct (Run_from_WAIT_FOR_RESET_pending px hdr d w1 e w' RC Te)
      as (d'' & R' & S' & _).
    rewrite R in R'. inversion R'; subst d''. rewrite S', St.
    destruct (100000 <? e); discriminate.
Qed.
End Traffic.

Lemma READ_bus_traffic_and_counters_witness :
  exists d' calls,
    Run Sim.platform Sim.registers
      (set_checked_register 1 (Sim.in_state READ (Sim.drifted 1 200000)))
    = Some (tt, d')
    /\ bus d' = calls ++ [bus_xfer [16] 7]
    /\ _transfer_perf d' = 1%nat.
Proof.
  assert (Hc : (1 < size_register_cfg Sim.registers)%nat)
    by (unfold size_register_cfg; cbn; lia).
  destruct (READ_bus_traffic_and_counters Sim.platform Sim.registers
              (set_checked_register 1 (Sim.in_state READ (Sim.drifted 1 200000)))
              200000 0 [1; 2; 1; 254; 255; 0; 128] (Sim.drifted 1 200000)
              eq_refl Hc eq_refl)
    as (d' & calls & R & B & T & _).
  exists d', calls. split; [exact R|]. split; [exact B|exact T].
Defined.

Lemma WAIT_FOR_RESET_reads_only_witness :
  exists d',
    Run Sim.platform Sim.registers
      (Sim.in_state WAIT_FOR_RESET (Sim.silent 10)) = Some (tt, d')
    /\ _px4_mag d' = [].
Proof.
  destruct (WAIT_FOR_RESET_reads_only Sim.platform Sim.registers
              (Sim.in_state WAIT_FOR_RESET (Sim.silent 10))
              0 (Sim.silent 10) eq_refl eq_refl)
    as (d' & R & _ & _ & M & _).
  exists d'. split; [exact R|exact M].
Defined.

Section Pulse.
Context {W : Type}.
Variable px : Platform W.
Variable hdr : Registers.
Implicit Type d : IST8308 W.

(** X7.  An invocation in RESET reads the control register and writes it
    back with the software-reset bit set and every bit it held kept (no
    other bit is touched); it records the time after the write as the
    start of the reset, moves to WAIT_FOR_RESET, asks to be run again 50 ms
    later, and hands nothing to the sink.  It does so whatever the device
    answers. *)
Theorem RESET_pulses_the_reset_bit d cur w :
  _state d = RESET ->
  0 <= CNTL3_SRST hdr < 256 ->
  reg_read px hdr (Register_CNTL3 hdr) (world d) = (cur, w) ->
  exists d' value,
    Run px hdr d = Some (tt, d')
    /\ bus d' = bus_xfer3 [uint8 (Register_CNTL3 hdr); value]
                :: bus_xfer3 (read_cmd hdr (Register_CNTL3 hdr)) :: bus d
    /\ 0 <= value < 256
    /\ Z.land value (CNTL3_SRST hdr) = CNTL3_SRST hdr
    /\ Z.land value cur = cur
    /\ (forall i, Z.testbit (CNTL3_SRST hdr) i = false ->
                  Z.testbit value i = Z.testbit cur i)
    /\ _reset_timestamp d'
       = fst (hrt_absolute_time px
                (reg_write px (Register_CNTL3 hdr) value w))
    /\ _state d' = WAIT_FOR_RESET
    /\ work_queue d' = ScheduleDelayed_ 50000 :: work_queue d
    /\ _px4_mag d' = _px4_mag d.
Proof.
  intros St Hs E. rewrite Run_unfold, St.
  destruct (hrt_absolute_time px
              (reg_write px (Register_CNTL3 hdr)
                 (Z.lor cur (CNTL3_SRST hdr)) w)) as [t w'] eqn:T.
  destruct (Run_from_RESET px hdr d cur w t w' Hs E T)
    as (d' & R & S' & Ts & Q & B & _).
  destruct (Run_from_RESET_frame px hdr d)
    as (d'' & calls & R' & _ & _ & M & _).
  rewrite R in R'. inversion R'; subst d''.
  assert (Hcur : 0 <= cur < 256).
  { pose proof (reg_read_range px hdr (Register_CNTL3 hdr) (world d)) as Hr.
    rewrite E in Hr. exact Hr. }
  exists d', (Z.lor cur (CNTL3_SRST hdr)).
  split; [exact R|]. split; [exact B|].
  split; [apply lor_byte_range; assumption|].
  split; [apply Z.bits_inj'; intros i Hi;
          rewrite Z.land_spec, Z.lor_spec;
          destruct (Z.testbit cur i), (Z.testbit (CNTL3_SRST hdr) i);
          reflexivity|].
  split; [apply Z.bits_inj'; intros i Hi;
          rewrite Z.land_spec, Z.lor_spec;
          destruct (Z.testbit cur i), (Z.testbit (CNTL3_SRST hdr) i);
          reflexivity|].
  split; [intros i Hi; rewrite Z.lor_spec, Hi; apply orb_false_r|].
  split; [rewrite T; exact Ts|].
  repeat split; assumption.
Qed.
End Pulse.

Lemma RESET_pulses_the_reset_bit_witness :
  exists d' value,
    Run Sim.platform Sim.registers (constructed (Sim.healthy 0 7))
    = Some (tt, d')
    /\ bus d' = [bus_xfer3 [50; value]; bus_xfer3 [178; 0]]
    /\ _state d' = WAIT_FOR_RESET.
Proof.
  assert (Hs : 0 <= CNTL3_SRST Sim.registers < 256) by (cbn; lia).
  destruct (RESET_pulses_the_reset_bit Sim.platform Sim.registers
              (constructed (Sim.healthy 0 7)) 0 (Sim.healthy 0 7)
              eq_refl Hs eq_refl)
    as (d' & value & R & B & _ & _ & _ & _ & _ & S' & _).
  exists d', value. split; [exact R|]. split; [exact B|exact S'].
Defined.

(** ** Runs of several invocations *)

Section Runs.
Context {W : Type}.
Variable px : Platform W.
Variable hdr : Registers.
Implicit Type d : IST8308 W.

Lemma Run_each_cons w ws d :
  Run_each px hdr (w :: ws) d
  = match Run px hdr (set_world w d) with
    | Some (_, d1) => Run_each px hdr ws d1
    | None => None
    end.
Proof.
  cbn [Run_each]. unfold bind at 1, Run_at, bind at 1, modify.
  destruct (Run px hdr (set_world w d)) as [[[] d1]|]; reflexivity.
Qed.

(** The CONFIGURE branch, with the bus traffic and what it leaves alone. *)
Lemma Run_from_CONFIGURE_frame d :
  exists oks d1 d' calls,
    Run_from px hdr CONFIGURE d = Some (tt, d')
    /\ check_all px hdr (_register_cfg hdr) d = Some (oks, d1)
    /\ _state d' = (if forallb (fun ok => ok) oks then READ else _state d)
    /\ work_queue d'
       = (if forallb (fun ok => ok) oks
          then ScheduleOnInterval_ 20000 20000 else ScheduleDelayed_ 50000)
         :: work_queue d
    /\ _px4_mag d'
       = mag_set_temperature_NAN :: mag_set_scale scale_6_6_LSB_per_uT
         :: _px4_mag d
    /\ _checked_register d' = _checked_register d
    /\ bus d' = calls ++ bus d
    /\ length calls = (size_register_cfg hdr + 2 * failures oks)%nat.
Proof.
  destruct (check_all_total px hdr (_register_cfg hdr) d)
    as (oks & d1 & E & _ & F).
  destruct (check_all_effect px hdr _ _ _ _ E) as (calls & B & L & _).
  destruct F as (F1 & F2 & _ & _ & F5 & F6 & _).
  exists oks, d1.
  unfold Run_from, bind. rewrite (Configure_run px hdr _ _ _ E).
  destruct (forallb (fun ok => ok) oks);
    eexists _, calls; (split; [reflexivity|]);
    (split; [exact E|]); cbn;
    repeat split; try assumption; congruence.
Qed.

(** When every entry passes its test, the pass over the table finds no
    fault. *)
Lemma check_all_verified regs d :
  verified px hdr regs (world d) = true ->
  exists d1,
    check_all px hdr regs d = Some (map (fun _ => true) regs, d1).
Proof.
  revert d. induction regs as [|reg_cfg rest IH]; intros d V.
  - exists d. reflexivity.
  - cbn [verified] in V.
    destruct (reg_read px hdr (reg reg_cfg) (world d)) as [v w1] eqn:E.
    apply andb_true_iff in V. destruct V as [C V].
    cbn [check_all]. unfold bind at 1.
    rewrite (RegisterCheck_pass px hdr reg_cfg _ d v w1 E C).
    destruct (IH (on_bus [bus_xfer3 (read_cmd hdr (reg reg_cfg))] w1 d))
      as (d1 & E1); [exact V|].
    unfold bind. rewrite E1. exists d1. reflexivity.
Qed.

Lemma forallb_all_true {A : Type} (l : list A) :
  forallb (fun ok => ok) (map (fun _ => true) l) = true.
Proof. induction l; cbn; auto. Qed.

(** X8.  Outside READ no sample reaches the sink: an invocation in RESET,
    WAIT_FOR_RESET, REQUEST_STOP or STOPPED hands the sink nothing, and an
    invocation in CONFIGURE hands it the scale and the undefined
    temperature, whether the table verified or not. *)
Theorem no_sample_outside_READ d :
  _state d <> READ ->
  exists d' new,
    Run px hdr d = Some (tt, d')
    /\ _px4_mag d' = new ++ _px4_mag d
    /\ existsb is_sample new = false
    /\ (_state d = CONFIGURE ->
        new = [mag_set_temperature_NAN; mag_set_scale scale_6_6_LSB_per_uT])
    /\ (_state d <> CONFIGURE -> new = []).
Proof.
  intros St. rewrite Run_unfold. destruct (_state d) eqn:Sd.
  - destruct (Run_from_RESET_frame px hdr d)
      as (d' & calls & R & _ & _ & M & _).
    exists d', []. repeat split; try assumption. discriminate.
  - destruct (reg_read px hdr (Register_WAI hdr) (world d)) as [wai w1] eqn:E.
    destruct (Run_from_WAIT_FOR_RESET_frame px hdr d wai w1 E)
      as (d' & R & _ & M & _).
    exists d', []. repeat split; try assumption. discriminate.
  - destruct (Run_from_CONFIGURE_frame d)
      as (oks & d1 & d' & calls & R & _ & _ & _ & M & _).
    exists d', [mag_set_temperature_NAN; mag_set_scale scale_6_6_LSB_per_uT].
    repeat split; try assumption. congruence.
  - congruence.
  - eexists _, []. split; [reflexivity|]. repeat split. discriminate.
  - eexists _, []. split; [reflexivity|]. repeat split. discriminate.
Qed.

(** X9.  As long as the device does not answer the reset (its identity
    does not read back, or the reset bit stays set), the driver only
    alternates between RESET and WAIT_FOR_RESET: however many invocations
    run, it never reaches CONFIGURE or READ, the sink receives nothing, the
    health-check cursor stays where it was, and every invocation asks for
    exactly one further invocation, so the driver neither stops nor piles
    up work. *)
Theorem unanswered_reset_keeps_retrying ws d :
  _state d = RESET \/ _state d = WAIT_FOR_RESET ->
  Forall (fun w => fst (reset_complete px hdr w) = false) ws ->
  exists d' new,
    Run_each px hdr ws d = Some (tt, d')
    /\ (_state d' = RESET \/ _state d' = WAIT_FOR_RESET)
    /\ _px4_mag d' = _px4_mag d
    /\ _checked_register d' = _checked_register d
    /\ work_queue d' = new ++ work_queue d
    /\ length new = length ws
    /\ ~ In ScheduleClear_ new.
Proof.
  revert d. induction ws as [|w ws IH]; intros d St F.
  - exists d, []. repeat split; auto.
  - inversion F as [|w0 ws0 Fw Fws]; subst.
    rewrite Run_each_cons, Run_unfold.
    assert (Step : exists d1 c,
               Run_from px hdr (_state (set_world w d)) (set_world w d)
               = Some (tt, d1)
               /\ (_state d1 = RESET \/ _state d1 = WAIT_FOR_RESET)
               /\ _px4_mag d1 = _px4_mag d
               /\ _checked_register d1 = _checked_register d
               /\ work_queue d1 = c :: work_queue d
               /\ c <> ScheduleClear_).
    { change (_state (set_world w d)) with (_state d).
      destruct St as [St|St]; rewrite St.
      - destruct (Run_from_RESET_frame px hdr (set_world w d))
          as (d1 & calls & R & S1 & Q & M & C & _).
        exists d1, (ScheduleDelayed_ 50000).
        repeat split; auto. discriminate.
      - destruct (reset_complete px hdr w) as [rc w1] eqn:RC.
        cbn [fst] in Fw. subst rc.
        destruct (hrt_elapsed_time px (_reset_timestamp d) w1)
          as [e w'] eqn:Te.
        destruct (Run_from_WAIT_FOR_RESET_pending px hdr (set_world w d)
                    w1 e w' RC Te) as (d1 & R & S1 & Q & C).
        destruct (reg_read px hdr (Register_WAI hdr) w) as [wai w2] eqn:E.
        destruct (Run_from_WAIT_FOR_RESET_frame px hdr (set_world w d)
                    wai w2 E) as (d1' & R' & _ & M & _).
        rewrite R in R'. inversion R'; subst d1'.
        exists d1, (if 100000 <? e then ScheduleNow_
                    else ScheduleDelayed_ 50000).
        split; [exact R|].
        split; [rewrite S1; change (_state (set_world w d)) with (_state d);
                rewrite St; destruct (100000 <? e); auto|].
        repeat split; auto. destruct (100000 <? e); discriminate. }
    destruct Step as (d1 & c & R & S1 & M1 & C1 & Q1 & Hc).
    rewrite R.
    destruct (IH d1 S1 Fws) as (d' & new & R2 & S2 & M2 & C2 & Q2 & L2 & N2).
    exists d', (new ++ [c]). split; [exact R2|]. split; [exact S2|].
    split; [congruence|]. split; [congruence|].
    split; [rewrite Q2, Q1, <- app_assoc; reflexivity|].
    split; [rewrite length_app, L2; cbn; lia|].
    intros Hin. apply in_app_or in Hin. destruct Hin as [Hin|[Hin|[]]].
    + exact (N2 Hin).
    + exact (Hc Hin).
Qed.
End Runs.

Lemma no_sample_outside_READ_witness :
  exists d' new,
    Run Sim.platform Sim.registers
      (Sim.in_state CONFIGURE (Sim.drifted 0 1000)) = Some (tt, d')
    /\ _px4_mag d' = new
    /\ existsb is_sample new = false.
Proof.
  assert (St : _state (Sim.in_state CONFIGURE (Sim.drifted 0 1000)) <> READ)
    by (vm_compute; discriminate).
  destruct (no_sample_outside_READ Sim.platform Sim.registers
              (Sim.in_state CONFIGURE (Sim.drifted 0 1000)) St)
    as (d' & new & R & M & N & _).
  exists d', new. split; [exact R|]. split; [|exact N].
  rewrite M. apply app_nil_r.
Defined.

Lemma unanswered_reset_keeps_retrying_witness :
  exists d',
    Run_each Sim.platform Sim.registers
      [Sim.silent 0; Sim.silent 50000; Sim.silent 100000; Sim.silent 150000]
      (constructed (Sim.silent 0)) = Some (tt, d')
    /\ (_state d' = RESET \/ _state d' = WAIT_FOR_RESET)
    /\ _px4_mag d' = [].
Proof.
  assert (F : Forall (fun w => fst (reset_complete Sim.platform Sim.registers w)
                               = false)
                [Sim.silent 0; Sim.silent 50000; Sim.silent 100000;
                 Sim.silent 150000])
    by (repeat constructor).
  destruct (unanswered_reset_keeps_retrying Sim.platform Sim.registers
              [Sim.silent 0; Sim.silent 50000; Sim.silent 100000;
               Sim.silent 150000]
              (constructed (Sim.silent 0)) (or_introl eq_refl) F)
    as (d' & new & R & S' & M & _).
  exists d'. split; [exact R|]. split; [exact S'|exact M].
Defined.

Section BringUp.
Context {W : Type}.
Variable px : Platform W.
Variable hdr : Registers.
Implicit Type d : IST8308 W.

(** X10.  Bring-up.  From RESET, three invocations are enough to reach
    READ when the device answers the reset by the second one and every
    table entry verifies in the third: the driver has asked for a delayed
    invocation, an immediate one and then for the 20 ms sampling interval,
    the sink has been given the scale and the undefined temperature and no
    sample, the health-check cursor has not moved, and the bus has carried
    the reset pulse (a read and a write), the two reads of the reset test
    and one read per table entry. *)
Theorem bring_up_reaches_READ d w1 w2 w3 :
  _state d = RESET ->
  fst (reset_complete px hdr w2) = true ->
  verified px hdr (_register_cfg hdr) w3 = true ->
  exists d' calls,
    Run_each px hdr [w1; w2; w3] d = Some (tt, d')
    /\ _state d' = READ
    /\ work_queue d'
       = ScheduleOnInterval_ 20000 20000 :: ScheduleNow_
         :: ScheduleDelayed_ 50000 :: work_queue d
    /\ _px4_mag d'
       = mag_set_temperature_NAN :: mag_set_scale scale_6_6_LSB_per_uT
         :: _px4_mag d
    /\ _checked_register d' = _checked_register d
    /\ bus d' = calls ++ bus d
    /\ length calls = (4 + size_register_cfg hdr)%nat.
Proof.
  intros St RC V.
  (* RESET *)
  rewrite Run_each_cons, Run_unfold.
  change (_state (set_world w1 d)) with (_state d). rewrite St.
  destruct (Run_from_RESET_frame px hdr (set_world w1 d))
    as (d1 & calls1 & R1 & S1 & Q1 & M1 & C1 & _ & B1 & L1).
  rewrite R1.
  (* WAIT_FOR_RESET *)
  rewrite Run_each_cons, Run_unfold.
  change (_state (set_world w2 d1)) with (_state d1). rewrite S1.
  destruct (reset_complete px hdr w2) as [rc w2'] eqn:RC2.
  cbn [fst] in RC. subst rc.
  destruct (Run_from_WAIT_FOR_RESET_complete px hdr (set_world w2 d1) w2' RC2)
    as (d2 & R2 & S2 & Q2 & C2).
  destruct (reg_read px hdr (Register_WAI hdr) w2) as [wai wx] eqn:E.
  destruct (Run_from_WAIT_FOR_RESET_frame px hdr (set_world w2 d1) wai wx E)
    as (d2' & R2' & B2 & M2 & _).
  rewrite R2 in R2'. inversion R2'; subst d2'.
  assert (Hw : (wai =? Device_ID hdr) = true).
  { unfold reset_complete in RC2. rewrite E in RC2.
    destruct (wai =? Device_ID hdr); [reflexivity|discriminate RC2]. }
  rewrite Hw in B2.
  rewrite R2.
  (* CONFIGURE *)
  rewrite Run_each_cons, Run_unfold.
  change (_state (set_world w3 d2)) with (_state d2). rewrite S2.
  destruct (Run_from_CONFIGURE_frame px hdr (set_world w3 d2))
    as (oks & d3 & d' & calls3 & R3 & E3 & S3 & Q3 & M3 & C3 & B3 & L3).
  destruct (check_all_verified px hdr (_register_cfg hdr) (set_world w3 d2) V)
    as (d3' & E3').
  rewrite E3 in E3'. inversion E3'; subst oks d3'.
  rewrite forallb_all_true in S3, Q3.
  assert (F0 : failures (map (fun _ : register_config_t => true)
                           (_register_cfg hdr)) = 0%nat)
    by (apply failures_none, forallb_all_true).
  rewrite F0 in L3.
  rewrite R3. cbn [Run_each].
  exists d', (calls3
              ++ [bus_xfer3 (read_cmd hdr (Register_CNTL3 hdr));
                  bus_xfer3 (read_cmd hdr (Register_WAI hdr))]
              ++ calls1).
  split; [reflexivity|]. split; [exact S3|].
  split; [rewrite Q3; cbn [work_queue set_world]; rewrite Q2;
          cbn [work_queue set_world]; rewrite Q1; reflexivity|].
  split; [rewrite M3; cbn [_px4_mag set_world]; rewrite M2;
          cbn [_px4_mag set_world]; rewrite M1; reflexivity|].
  split; [rewrite C3; cbn [_checked_register set_world]; rewrite C2;
          cbn [_checked_register set_world]; rewrite C1; reflexivity|].
  split.
  - rewrite B3. cbn [bus set_world]. rewrite B2. cbn [bus set_world].
    rewrite B1. cbn [bus set_world]. rewrite <- !app_assoc. reflexivity.
  - rewrite !length_app, L3, L1. cbn [length]. lia.
Qed.

(** A stopped driver does nothing. *)
Lemma Run_each_STOPPED_inert ws d :
  _state d = STOPPED ->
  exists d',
    Run_each px hdr ws d = Some (tt, d')
    /\ _state d' = STOPPED
    /\ bus d' = bus d
    /\ _px4_mag d' = _px4_mag d
    /\ work_queue d' = work_queue d
    /\ _checked_register d' = _checked_register d.
Proof.
  revert d. induction ws as [|w ws IH]; intros d St.
  - exists d. repeat split; auto.
  - rewrite Run_each_cons, (Run_STOPPED px hdr (set_world w d)) by exact St.
    destruct (IH (set_world w d) St) as (d' & R & S' & B & M & Q & C).
    exists d'. repeat split; assumption.
Qed.

(** X11.  A stop request is final.  Once REQUEST_STOP or STOPPED is in the
    state, however many invocations the work queue still runs, none of
    them touches the bus, the sink or the cursor, and none asks for a
    further invocation: the first one after the request clears the
    schedule and stores STOPPED, the others do nothing. *)
Theorem stop_request_is_final ws d :
  _state d = REQUEST_STOP \/ _state d = STOPPED ->
  exists d',
    Run_each px hdr ws d = Some (tt, d')
    /\ (ws <> [] -> _state d' = STOPPED)
    /\ bus d' = bus d
    /\ _px4_mag d' = _px4_mag d
    /\ _checked_register d' = _checked_register d
    /\ work_queue d'
       = match _state d, ws with
         | REQUEST_STOP, _ :: _ => ScheduleClear_ :: work_queue d
         | _, _ => work_queue d
         end.
Proof.
  intros [St|St].
  - destruct ws as [|w ws].
    + exists d. rewrite St. repeat split; auto. congruence.
    + rewrite Run_each_cons, (Run_REQUEST_STOP px hdr (set_world w d))
        by exact St.
      destruct (Run_each_STOPPED_inert ws
                  (set_state STOPPED
                     (set_work_queue
                        (ScheduleClear_ :: work_queue (set_world w d))
                        (set_world w d))) eq_refl)
        as (d' & R & S' & B & M & Q & C).
      exists d'. rewrite St. repeat split; auto.
  - destruct (Run_each_STOPPED_inert ws d St) as (d' & R & S' & B & M & Q & C).
    exists d'. rewrite St. repeat split; auto.
Qed.
End BringUp.

Lemma bring_up_reaches_READ_witness :
  exists d' calls,
    Run_each Sim.platform Sim.registers
      [Sim.healthy 0 0; Sim.healthy 0 50000; Sim.healthy 0 50001]
      (constructed (Sim.healthy 0 0)) = Some (tt, d')
    /\ _state d' = READ
    /\ bus d' = calls
    /\ length calls = 10%nat.
Proof.
  destruct (bring_up_reaches_READ Sim.platform Sim.registers
              (constructed (Sim.healthy 0 0))
              (Sim.healthy 0 0) (Sim.healthy 0 50000) (Sim.healthy 0 50001)
              eq_refl eq_refl eq_refl)
    as (d' & calls & R & S' & _ & _ & _ & B & L).
  exists d', calls. split; [exact R|]. split; [exact S'|].
  split; [rewrite B; apply app_nil_r|exact L].
Defined.

Lemma stop_request_is_final_witness :
  exists d',
    Run_each Sim.platform Sim.registers
      [Sim.healthy 1 10; Sim.healthy 1 20]
      (Sim.in_state REQUEST_STOP (Sim.healthy 1 0)) = Some (tt, d')
    /\ _state d' = STOPPED
    /\ work_queue d' = [ScheduleClear_].
Proof.
  assert (N : [Sim.healthy 1 10; Sim.healthy 1 20] <> [])
    by discriminate.
  destruct (stop_request_is_final Sim.platform Sim.registers
              [Sim.healthy 1 10; Sim.healthy 1 20]
              (Sim.in_state REQUEST_STOP (Sim.healthy 1 0))
              (or_introl eq_refl))
    as (d' & R & S' & _ & _ & _ & Q).
  exists d'. split; [exact R|]. split; [exact (S' N)|exact Q].
Defined.

(** ** Starting and stopping *)

Section StartStop.
Context {W : Type}.
Variable px : Platform W.
Variable hdr : Registers.
Variable I2C_init : W -> Z * W.
Variable PX4_ERROR : Z.
Implicit Type d : IST8308 W.

(** X12.  [Reset] re-arms the driver from any state, STOPPED included:
    it always returns true, clears the schedule and asks for an immediate
    invocation, and that invocation, whatever the device answers, issues
    the reset pulse and waits in WAIT_FOR_RESET.  It restarts neither the
    health-check cursor nor the time of the last check, and hands nothing
    to the sink. *)
Theorem Reset_rearms_from_any_state d w :
  exists d1 d2,
    Reset d = Some (true, d1)
    /\ work_queue d1 = ScheduleNow_ :: ScheduleClear_ :: work_queue d
    /\ bus d1 = bus d
    /\ Run px hdr (set_world w d1) = Some (tt, d2)
    /\ _state d2 = WAIT_FOR_RESET
    /\ work_queue d2
       = ScheduleDelayed_ 50000 :: ScheduleNow_ :: ScheduleClear_
         :: work_queue d
    /\ length (bus d2) = (2 + length (bus d))%nat
    /\ _px4_mag d2 = _px4_mag d
    /\ _checked_register d2 = _checked_register d
    /\ _last_config_check_timestamp d2 = _last_config_check_timestamp d.
Proof.
  eexists. 
  destruct (Run_from_RESET_frame px hdr
              (set_world w
                 (set_work_queue
                    (ScheduleNow_ :: ScheduleClear_ :: work_queue d)
                    (set_state RESET d))))
    as (d2 & calls & R & S2 & Q2 & M2 & C2 & T2 & B2 & L2).
  exists d2.
  split; [reflexivity|]. split; [reflexivity|]. split; [reflexivity|].
  split; [exact R|]. split; [exact S2|]. split; [exact Q2|].
  split; [rewrite B2, length_app, L2; reflexivity|].
  repeat split; assumption.
Qed.

(** X13.  [Init] returns true exactly when the initialisation of the bus
    returned PX4_OK.  When it did not, the driver object is as it was but
    for what the bus did to the world: the state is not stored, nothing is
    scheduled, so no invocation will ever run.  When it did, the driver is
    in RESET with an immediate invocation asked for. *)
Theorem Init_follows_the_bus d r w :
  I2C_init (world d) = (r, w) ->
  exists ok d1,
    Init px I2C_init d = Some (ok, d1)
    /\ (ok = true <-> r = PX4_OK px)
    /\ (r <> PX4_OK px -> d1 = set_world w d)
    /\ (r = PX4_OK px ->
        _state d1 = RESET
        /\ work_queue d1 = ScheduleNow_ :: ScheduleClear_ :: work_queue d)
    /\ bus d1 = bus d
    /\ _px4_mag d1 = _px4_mag d.
Proof.
  intros E. unfold Init. rewrite E.
  destruct (Z.eqb_spec r (PX4_OK px)) as [Hr|Hr]; cbn [negb].
  - eexists true, _. split; [reflexivity|].
    split; [tauto|]. split; [contradiction|]. repeat split.
  - eexists false, _. split; [reflexivity|].
    split; [split; [discriminate|contradiction]|].
    split; [reflexivity|]. split; [contradiction|]. split; reflexivity.
Qed.

(** X14.  [probe] accepts the device exactly when the identity register
    reads back the expected signature.  It issues that one read and looks
    at nothing else: not at the status of the transfer, so that a device
    that does not answer is rejected only because the receive byte, left
    as it was sent, differs from the signature. *)
Theorem probe_accepts_only_the_signature d whoami w :
  PX4_ERROR <> PX4_OK px ->
  reg_read px hdr (Register_WAI hdr) (world d) = (whoami, w) ->
  exists r,
    probe px hdr PX4_ERROR d
    = Some (r, on_bus [bus_xfer3 (read_cmd hdr (Register_WAI hdr))] w d)
    /\ (r = PX4_OK px <-> whoami = Device_ID hdr)
    /\ (r <> PX4_OK px -> r = PX4_ERROR).
Proof.
  clear I2C_init. intros Hne E. unfold probe, bind.
  rewrite (RegisterRead_run px hdr _ d whoami w E).
  destruct (Z.eqb_spec whoami (Device_ID hdr)) as [Hw|Hw]; cbn [negb].
  - exists (PX4_OK px). split; [reflexivity|]. split; [tauto|].
    intros H; contradiction.
  - exists PX4_ERROR. split; [reflexivity|]. split; [|reflexivity].
    split; [intros H; contradiction|intros H; contradiction].
Qed.

Lemma bind_Some {A B : Type} (m : M W A) (k : A -> M W B) d r :
  bind m k d = Some r ->
  exists a d1, m d = Some (a, d1) /\ k a d1 = Some r.
Proof.
  unfold bind. destruct (m d) as [[a d1]|]; [|discriminate].
  intros H. now exists a, d1.
Qed.

(** X15.  [Stop] returns only from the test of its loop: whenever it
    returns, whatever the work queue did in between and however it was
    interleaved, the state it leaves is STOPPED. *)
Theorem Stop_returns_only_when_STOPPED fuel wq d d' :
  Stop px hdr fuel wq d = Some (tt, d') ->
  _state d' = STOPPED.
Proof.
  revert wq d. induction fuel as [|fuel IH]; intros wq d H.
  - discriminate H.
  - cbn [Stop] in H. unfold bind at 1, load_state at 1, gets at 1 in H.
    destruct (STATE_eqb (_state d) STOPPED) eqn:Q; cbn [negb] in H.
    + inversion H; subst d'. now destruct (_state d).
    + apply bind_Some in H. destruct H as (? & d1 & _ & H).
      exact (IH _ _ H).
Qed.

(** X16.  [Stop] depends on the work queue: when the driver is not
    stopped and the work queue runs no invocation, the loop never ends;
    no number of rounds is enough. *)
Theorem Stop_needs_the_work_queue fuel wq d :
  _state d <> STOPPED ->
  Forall (fun p => p = no_preemption) wq ->
  Stop px hdr fuel wq d = None.
Proof.
  revert wq d. induction fuel as [|fuel IH]; intros wq d St F.
  - reflexivity.
  - cbn [Stop]. unfold bind at 1, load_state at 1, gets at 1.
    destruct (STATE_eqb (_state d) STOPPED) eqn:Q;
      [destruct (_state d); try discriminate Q; congruence|].
    cbn [negb].
    assert (Hp : hd no_preemption wq = no_preemption)
      by (destruct F; [reflexivity|assumption]).
    rewrite Hp. unfold Stop_round.
    cbn [after_load in_flight after_store during_usleep
         no_preemption Deliver].
    unfold finish_in_flight. cbn [in_flight no_preemption].
    unfold bind, ret, load_state, gets, store_state, modify, ScheduleNow.
    apply IH.
    + cbn. discriminate.
    + destruct F; [constructor|assumption].
Qed.
End StartStop.

Lemma Init_follows_the_bus_witness :
  exists d1,
    Init Sim.platform (fun w => (-1, w))
      (constructed (Sim.healthy 0 0)) = Some (false, d1)
    /\ work_queue d1 = [].
Proof.
  destruct (Init_follows_the_bus Sim.platform (fun w => (-1, w))
              (constructed (Sim.healthy 0 0)) (-1) (Sim.healthy 0 0) eq_refl)
    as (ok & d1 & R & I & F & _).
  assert (Hr : -1 <> PX4_OK Sim.platform) by (cbn; lia).
  exists d1. destruct ok.
  - exfalso. apply Hr. apply I. reflexivity.
  - split; [exact R|]. rewrite (F Hr). reflexivity.
Defined.

Lemma probe_accepts_only_the_signature_witness :
  exists d1,
    probe Sim.platform Sim.registers (-1)
      (constructed (Sim.faulty [Sim.Nak] 0 0)) = Some (-1, d1).
Proof.
  assert (Hne : -1 <> PX4_OK Sim.platform) by (cbn; lia).
  destruct (probe_accepts_only_the_signature Sim.platform Sim.registers (-1)
              (constructed (Sim.faulty [Sim.Nak] 0 0))
              0 (Sim.faulty [] 0 0) Hne eq_refl)
    as (r & R & I & F).
  eexists. rewrite R. f_equal. f_equal. apply F.
  intros H. apply I in H. discriminate H.
Defined.

Lemma Stop_returns_only_when_STOPPED_witness :
  exists d',
    Stop Sim.platform Sim.registers 3 Sim.late_delivery
      (Sim.in_state READ (Sim.healthy 1 1000)) = Some (tt, d')
    /\ _state d' = STOPPED.
Proof.
  assert (E : exists d',
             Stop Sim.platform Sim.registers 3 Sim.late_delivery
               (Sim.in_state READ (Sim.healthy 1 1000)) = Some (tt, d'))
    by (vm_compute; eexists; reflexivity).
  destruct E as [d' E].
  exists d'. split; [exact E|].
  exact (Stop_returns_only_when_STOPPED Sim.platform Sim.registers 3
           Sim.late_delivery (Sim.in_state READ (Sim.healthy 1 1000)) d' E).
Defined.

Lemma Stop_needs_the_work_queue_witness :
  Stop Sim.platform Sim.registers 5 [no_preemption; no_preemption]
    (Sim.in_state READ (Sim.healthy 1 1000)) = None.
Proof.
  apply Stop_needs_the_work_queue.
  - vm_compute. discriminate.
  - repeat constructor.
Defined.

(** ** The two one-sided wrappers of the read-modify-write *)

Section Wrappers.
Context {W : Type}.
Variable px : Platform W.
Variable hdr : Registers.
Implicit Type d : IST8308 W.

(** X17.  [RegisterSetBits] and [RegisterClearBits] are the read-modify-write
    with one mask empty: each issues one read and one write of the same
    register, the first writes the byte just read with the bits of the mask
    set and no bit cleared, the second writes it with the bits of the mask
    cleared and no bit set. *)
Theorem RegisterSetBits_ClearBits_one_sided reg_ bits d cur w :
  0 <= bits < 256 ->
  reg_read px hdr reg_ (world d) = (cur, w) ->
  exists vs vc ds dc,
    RegisterSetBits px hdr reg_ bits d = Some (tt, ds)
    /\ bus ds = bus_xfer3 [uint8 reg_; vs]
                :: bus_xfer3 (read_cmd hdr reg_) :: bus d
    /\ (forall i, Z.testbit vs i = Z.testbit cur i || Z.testbit bits i)
    /\ RegisterClearBits px hdr reg_ bits d = Some (tt, dc)
    /\ bus dc = bus_xfer3 [uint8 reg_; vc]
                :: bus_xfer3 (read_cmd hdr reg_) :: bus d
    /\ (forall i, 0 <= i ->
          Z.testbit vc i = Z.testbit cur i && negb (Z.testbit bits i)).
Proof.
  intros Hb E.
  pose proof (RegisterSetAndClearBits_run px hdr reg_ bits 0 d cur w Hb E)
    as Rs.
  assert (H0 : 0 <= 0 < 256) by lia.
  pose proof (RegisterSetAndClearBits_run px hdr reg_ 0 bits d cur w H0 E)
    as Rc.
  cbv zeta in Rs, Rc.
  eexists _, _, _, _.
  split; [exact Rs|]. split; [reflexivity|]. split.
  - intros i. rewrite Z.lnot_0, Z.land_m1_r, Z.lor_spec. reflexivity.
  - split; [exact Rc|]. split; [reflexivity|].
    intros i Hi. rewrite Z.land_spec, Z.lor_0_r, Z.lnot_spec by exact Hi.
    reflexivity.
Qed.
End Wrappers.

Lemma RegisterSetBits_ClearBits_one_sided_witness :
  exists ds dc,
    RegisterSetBits Sim.platform Sim.registers 48 64
      (constructed (Sim.healthy 0 0)) = Some (tt, ds)
    /\ RegisterClearBits Sim.platform Sim.registers 48 64
         (constructed (Sim.healthy 0 0)) = Some (tt, dc).
Proof.
  assert (H1 : 0 <= 64 < 256) by lia.
  destruct (RegisterSetBits_ClearBits_one_sided Sim.platform Sim.registers
              48 64 (constructed (Sim.healthy 0 0)) 32 (Sim.healthy 0 0)
              H1 eq_refl)
    as (vs & vc & ds & dc & Rs & _ & _ & Rc & _).
  exists ds, dc. split; [exact Rs|exact Rc].
Defined.
